(** * Crawl orchestration and result reconciliation of crawl_infoq-deepcrawling.py

    A shallow embedding of [main]: the deep crawl, the fallback pass over the
    fixed URL list, the choice between the two result sets, and the two
    outputs built from the chosen one.

    Conventions.
    - A Python [str] is a [string]: one element per character, so that
      [len] is [String.length] and [s[:n]] keeps the first [n] elements.
    - Python values that reach [json.dump] are terms of [value]; a [dict]
      is an association list in insertion order.
    - [crawler.arun] and [json.loads] belong to libraries: they are the
      variables [arun] and [json_loads] of the sections below, so every
      theorem holds for every crawler and every decoder.
    - [main] is followed from the opening of the crawler session (line 70).
      Of what it prints, the lines of the fallback pass (lines 79-111) are
      kept in the state; the progress lines and the preview of lines 115-211
      are given apart, as the [report] of a result.  Creating the output
      directory and writing the two files are taken to succeed. *)

From Stdlib Require Import List String Ascii Bool Arith ZArith Lia Permutation.
Import ListNotations.
Local Open Scope string_scope.
Local Open Scope list_scope.
Set Warnings "-register-all".

(** ** Python values *)

Inductive value : Type :=
| VNone
| VBool (b : bool)
| VInt (z : Z)
| VFloat (digits : string)
| VStr (s : string)
| VList (items : list value)
| VDict (entries : list (string * value)).

(** [x if x is not None] rendering of an optional [str] attribute. *)
Definition of_opt_str (o : option string) : value :=
  match o with
  | Some s => VStr s
  | None => VNone
  end.

(** [d.get(k)] on an insertion-ordered dict. *)
Fixpoint dict_get (k : string) (entries : list (string * value)) : option value :=
  match entries with
  | [] => None
  | (k', v) :: rest => if String.eqb k k' then Some v else dict_get k rest
  end.

(** ** Strings *)

(** [s[:n]] *)
Fixpoint slice_to (n : nat) (s : string) : string :=
  match n, s with
  | S n', String c s' => String c (slice_to n' s')
  | _, _ => EmptyString
  end.

(** [s[n:]] *)
Fixpoint slice_from (n : nat) (s : string) : string :=
  match n, s with
  | S n', String _ s' => slice_from n' s'
  | _, _ => s
  end.

(** Truth value of an optional [str]: [None] and [""] are false. *)
Definition truthy (o : option string) : bool :=
  match o with
  | Some (String _ _) => true
  | _ => false
  end.

(** ** Page results *)

Record PageResult : Type := {
  url : string;
  success : bool;
  extracted_content : option string;
  markdown : option string;
  error_message : option string
}.

(** What [crawler.arun] hands back: a list of page results under a deep
    crawl strategy, one page result otherwise ([isinstance(result, list)]). *)
Inductive CrawlOutput : Type :=
| ResultList (pages : list PageResult)
| SingleResult (page : PageResult).

(** ** Reconciliation (lines 118-179) *)

Section Reconcile.

(** [json.loads] on a [str]: [None] stands for [json.JSONDecodeError], the
    one error line 145 catches. *)
Variable json_loads : string -> option value.

(** The one statement that a page runs against [all_extracted_content]. *)
Inductive Action : Type :=
| Extend (content : list value)
| Append (item : value).

Definition perform (all_extracted_content : list value) (a : Action) : list value :=
  match a with
  | Extend content => all_extracted_content ++ content
  | Append item => all_extracted_content ++ [item]
  end.

(** Line 156. *)
Definition markdown_preview (page_result : PageResult) : string :=
  if truthy (markdown page_result)
  then match markdown page_result with
       | Some m => (slice_to 200 m ++ "...")%string
       | None => "No content"
       end
  else "No content".

(** Lines 147-150. *)
Definition non_json_entry (page_result : PageResult) (raw : string) : value :=
  VDict [("url", VStr (url page_result)); ("content", VStr raw)].

(** Lines 153-157. *)
Definition no_extraction_entry (page_result : PageResult) : value :=
  VDict [("url", VStr (url page_result));
         ("status", VStr "no_extraction");
         ("markdown_preview", VStr (markdown_preview page_result))].

(** Lines 138-157: the branch taken for one page. *)
Definition page_action (page_result : PageResult) : Action :=
  if truthy (extracted_content page_result)
  then match extracted_content page_result with
       | Some raw =>
           match json_loads raw with
           | Some (VList content) => Extend content
           | Some content => Append content
           | None => Append (non_json_entry page_result raw)
           end
       | None => Append (no_extraction_entry page_result)
       end
  else Append (no_extraction_entry page_result).

(** The records one page adds to the aggregate list. *)
Definition page_records (page_result : PageResult) : list value :=
  perform [] (page_action page_result).

(** Loop state of lines 126-157. *)
Record Accum : Type := {
  all_extracted_content : list value;
  crawled_urls : list string
}.

Definition process_page (acc : Accum) (page_result : PageResult) : Accum :=
  {| all_extracted_content := perform (all_extracted_content acc) (page_action page_result);
     crawled_urls := crawled_urls acc ++ [url page_result] |}.

Definition process_pages (successful_results : list PageResult) : Accum :=
  fold_left process_page successful_results
    {| all_extracted_content := []; crawled_urls := [] |}.

(** Line 177. *)
Definition markdown_field (page_result : PageResult) : option string :=
  match markdown page_result with
  | Some m =>
      if truthy (markdown page_result) && (500 <? String.length m)%nat
      then Some (slice_to 500 m ++ "...")%string
      else markdown page_result
  | None => markdown page_result
  end.

(** Lines 173-178. *)
Definition page_data (page_result : PageResult) : value :=
  VDict [("url", VStr (url page_result));
         ("success", VBool (success page_result));
         ("extracted_content", of_opt_str (extracted_content page_result));
         ("markdown", of_opt_str (markdown_field page_result))].

(** Lines 171-179. *)
Definition build_detailed (successful_results : list PageResult) : list value :=
  fold_left (fun detailed_data page_result => detailed_data ++ [page_data page_result])
    successful_results [].

(** Lines 118-119. *)
Definition successful_of (result : list PageResult) : list PageResult :=
  filter success result.

Definition failed_of (result : list PageResult) : list PageResult :=
  filter (fun r => negb (success r)) result.

(** The two artifacts written for a result list: the aggregate records
    (output/deep_crawl_output.json) and the per-page summaries
    (output/deep_crawl_detailed.json). *)
Definition reconcile (result : list PageResult) : list value * list value :=
  (all_extracted_content (process_pages (successful_of result)),
   build_detailed (successful_of result)).

End Reconcile.

(** ** The crawler session and the fallback pass (lines 70-111) *)

(** The deep crawl strategy of lines 28-32. *)
Record DFSDeepCrawlStrategy : Type := {
  max_depth : nat;
  include_external : bool;
  max_pages : nat
}.

(** The fields in which [run_config] (lines 41-53) and [manual_config]
    (lines 82-92) are built; the extraction strategy is the same object in
    both and is left out. *)
Record CrawlerRunConfig : Type := {
  deep_crawl_strategy : option DFSDeepCrawlStrategy;
  remove_overlay_elements : bool;
  wait_for_images : bool;
  page_timeout : Z;
  js_only : bool;
  delay_before_return_html : Z;
  css_selector : string
}.

Definition run_config : CrawlerRunConfig :=
  {| deep_crawl_strategy :=
       Some {| max_depth := 2; include_external := false; max_pages := 10 |};
     remove_overlay_elements := true;
     wait_for_images := true;
     page_timeout := 60000%Z;
     js_only := true;
     delay_before_return_html := 5%Z;
     css_selector := "body" |}.

Definition manual_config : CrawlerRunConfig :=
  {| deep_crawl_strategy := None;
     remove_overlay_elements := true;
     wait_for_images := true;
     page_timeout := 60000%Z;
     js_only := true;
     delay_before_return_html := 5%Z;
     css_selector := "body" |}.

Definition seed_url : string := "https://tradesquareltd.com/".

(** Lines 58-66. *)
Definition urls_to_crawl : list string :=
  [ "https://tradesquareltd.com/";
    "https://tradesquareltd.com/home";
    "https://tradesquareltd.com/our-story";
    "https://tradesquareltd.com/our-works";
    "https://tradesquareltd.com/our-services";
    "https://tradesquareltd.com/careers";
    "https://tradesquareltd.com/contact-us" ].

(** An awaited [arun] either returns or raises an [Exception], the class
    that line 105 catches, whose [str(e)] is kept.  Interrupts and
    cancellations, which are not of that class, are not modelled. *)
Inductive Outcome : Type :=
| Returned (result : CrawlOutput)
| Raised (e : string).

(** Lines printed to the operator during the fallback pass. *)
Inductive Report : Type :=
| TryingManual                                   (* line 79 *)
| ManuallyCrawling (u : string)                  (* line 97 *)
| Success (u : string)                           (* line 102 *)
| Failed (u : string) (error : option string)    (* line 104 *)
| ErrorCrawling (u : string) (e : string)        (* line 106 *)
| UsingManual (pages : nat).                     (* line 111 *)

(** What [main] leaves behind. *)
Inductive Exit : Type :=
| Return (code : Z)
| Propagated (e : string).

Definition attribute_error : string := "'list' object has no attribute 'success'".

Section Crawl.

(** The state of the crawler session and of the network behind it. *)
Context {Net : Type}.
Variable arun : string -> CrawlerRunConfig -> Net -> Outcome * Net.
Variable json_loads : string -> option value.

Record World : Type := {
  net : Net;
  fetches : list (string * CrawlerRunConfig);
  stdout : list Report;
  files : list (string * list value)
}.

Definition M (A : Type) : Type := World -> A * World.

Definition ret {A} (a : A) : M A := fun w => (a, w).

Definition bind {A B} (m : M A) (k : A -> M B) : M B :=
  fun w => let (a, w') := m w in k a w'.

Notation "x <- m ;; k" := (bind m (fun x => k))
  (at level 61, m at next level, right associativity).
Notation "m ;;; k" := (bind m (fun _ => k))
  (at level 61, right associativity).

Definition await_arun (u : string) (config : CrawlerRunConfig) : M Outcome :=
  fun w =>
    let (o, n) := arun u config (net w) in
    (o, {| net := n;
           fetches := fetches w ++ [(u, config)];
           stdout := stdout w;
           files := files w |}).

Definition print (r : Report) : M unit :=
  fun w =>
    (tt, {| net := net w;
            fetches := fetches w;
            stdout := stdout w ++ [r];
            files := files w |}).

Definition json_dump (data : list value) (path : string) : M unit :=
  fun w =>
    (tt, {| net := net w;
            fetches := fetches w;
            stdout := stdout w;
            files := files w ++ [(path, data)] |}).

(** Lines 97-106: one turn of the loop over [urls_to_crawl]. *)
Definition crawl_manually (manual_results : list PageResult) (u : string)
  : M (list PageResult) :=
  print (ManuallyCrawling u) ;;;
  o <- await_arun u manual_config ;;
  match o with
  | Returned (SingleResult page_result) =>
      if success page_result
      then print (Success u) ;;; ret (manual_results ++ [page_result])
      else print (Failed u (error_message page_result)) ;;; ret manual_results
  | Returned (ResultList _) =>
      print (ErrorCrawling u attribute_error) ;;; ret manual_results
  | Raised e =>
      print (ErrorCrawling u e) ;;; ret manual_results
  end.

(** Lines 95-106. *)
Fixpoint manual_loop (urls : list string) (manual_results : list PageResult)
  : M (list PageResult) :=
  match urls with
  | [] => ret manual_results
  | u :: rest =>
      manual_results' <- crawl_manually manual_results u ;;
      manual_loop rest manual_results'
  end.

(** The fallback pass seen from outside: the outcomes of awaiting [arun]
    on each URL in turn, the pages such an outcome leaves in
    [manual_results], and the line it prints. *)
Fixpoint fetch_each (urls : list string) (n : Net) : list Outcome * Net :=
  match urls with
  | [] => ([], n)
  | u :: rest =>
      let (o, n') := arun u manual_config n in
      let (os, n'') := fetch_each rest n' in
      (o :: os, n'')
  end.

Definition kept (o : Outcome) : list PageResult :=
  match o with
  | Returned (SingleResult page_result) =>
      if success page_result then [page_result] else []
  | Returned (ResultList _) => []
  | Raised _ => []
  end.

Definition report_of (u : string) (o : Outcome) : Report :=
  match o with
  | Returned (SingleResult page_result) =>
      if success page_result then Success u else Failed u (error_message page_result)
  | Returned (ResultList _) => ErrorCrawling u attribute_error
  | Raised e => ErrorCrawling u e
  end.

Definition reports_of (urls : list string) (outcomes : list Outcome) : list Report :=
  flat_map (fun uo => [ManuallyCrawling (fst uo); report_of (fst uo) (snd uo)])
    (combine urls outcomes).

(** Line 109: [len(manual_results) > len(result) if isinstance(result, list) else 1]. *)
Definition use_manual (result : CrawlOutput) (manual_results : list PageResult) : bool :=
  match result with
  | ResultList pages => (List.length pages <? List.length manual_results)%nat
  | SingleResult _ => true
  end.

(** Line 78. *)
Definition found_limited (result : CrawlOutput) : bool :=
  match result with
  | ResultList pages => (List.length pages <? 3)%nat
  | SingleResult _ => false
  end.

(** Lines 78-111: the result that reaches line 114. *)
Definition fallback (result : CrawlOutput) : M CrawlOutput :=
  if found_limited result
  then
    print TryingManual ;;;
    manual_results <- manual_loop urls_to_crawl [] ;;
    if use_manual result manual_results
    then print (UsingManual (List.length manual_results)) ;;;
         ret (ResultList manual_results)
    else ret result
  else ret result.

(** The fixed-list result set built from session state [n]: the pages
    the pass keeps, in the order of [urls_to_crawl]. *)
Definition fixed_list_results (n : Net) : list PageResult :=
  flat_map kept (fst (fetch_each urls_to_crawl n)).

Definition output_path : string := "output/deep_crawl_output.json".
Definition detailed_output_path : string := "output/deep_crawl_detailed.json".

(** Lines 114-212: a list is reconciled and written out; a single result
    decides the exit code. *)
Definition handle (result : CrawlOutput) : M Exit :=
  match result with
  | ResultList pages =>
      let (aggregate, detailed_data) := reconcile json_loads pages in
      json_dump aggregate output_path ;;;
      json_dump detailed_data detailed_output_path ;;;
      ret (Return 0%Z)
  | SingleResult page =>
      if success page then ret (Return 0%Z) else ret (Return 1%Z)
  end.

(** Lines 70-214.  An error raised by the deep crawl is caught nowhere and
    leaves [main]. *)
Definition main : M Exit :=
  o <- await_arun seed_url run_config ;;
  match o with
  | Raised e => ret (Propagated e)
  | Returned result =>
      result' <- fallback result ;;
      handle result'
  end.

End Crawl.

(** ** What the run prints once the result is chosen (lines 114-211)

    The lines are kept apart from [stdout], as the list [report] of a result.
    [str] is Python's built-in, which formats a value put in an f-string;
    like [json.loads] it is a variable. *)

Inductive Line : Type :=
| CrawlCompleted                                     (* line 115 *)
| Crawled (pages : nat)                              (* line 116 *)
| SuccessfulCount (pages : nat)                      (* line 121 *)
| FailedCount (pages : nat)                          (* line 123 *)
| PageLine (number : nat) (u : string)               (* line 131 *)
| HasExtracted (present : bool)                      (* line 134 *)
| ContentLength (chars : nat)                        (* line 136 *)
| ResultsSaved (path : string)                       (* line 167 *)
| DetailedSaved (path : string)                      (* line 183 *)
| ExtractedTotal (items : nat)                       (* line 187 *)
| PreviewHeader                                      (* line 189 *)
| PreviewTitle (number : nat) (title : string)       (* line 193 *)
| PreviewLink (link : string)                        (* line 195 *)
| PreviewDetails (details : string)                  (* line 197 *)
| FailedHeader                                       (* line 201 *)
| FailedUrl (u : string) (error : option string)     (* line 203 *)
| SinglePageSuccessful                               (* line 208 *)
| CrawlFailed (error : option string).               (* line 211 *)

(** [d.get(k, default)] *)
Definition get_or (k : string) (d : list (string * value)) (default : value) : value :=
  match dict_get k d with
  | Some v => v
  | None => default
  end.

(** Line 192. *)
Definition preview_title (item : list (string * value)) : value :=
  get_or "title" item (get_or "name" item (get_or "url" item (VStr "No title"))).

(** [x is not None] *)
Definition is_not_none (o : option string) : bool :=
  match o with
  | Some _ => true
  | None => false
  end.

Section Report.

Variable json_loads : string -> option value.
Variable str : value -> string.

(** Lines 131-136, for the page at index [i] of [successful_results]. *)
Definition page_lines (i : nat) (page_result : PageResult) : list Line :=
  [PageLine (i + 1) (url page_result);
   HasExtracted (is_not_none (extracted_content page_result))]
  ++ (if truthy (extracted_content page_result)
      then match extracted_content page_result with
           | Some raw => [ContentLength (String.length raw)]
           | None => []
           end
      else []).

(** Lines 129-136, from index [i] on. *)
Fixpoint pages_lines (i : nat) (successful_results : list PageResult) : list Line :=
  match successful_results with
  | [] => []
  | page_result :: rest => page_lines i page_result ++ pages_lines (S i) rest
  end.

(** Lines 191-197, for the item at index [i] of [all_extracted_content[:3]]. *)
Definition preview_item (i : nat) (item : value) : list Line :=
  match item with
  | VDict entries =>
      [PreviewTitle (i + 1) (str (preview_title entries))]
      ++ (match dict_get "link" entries with
          | Some link => [PreviewLink (str link)]
          | None => []
          end)
      ++ (match dict_get "details" entries with
          | Some details => [PreviewDetails (slice_to 100 (str details) ++ "...")%string]
          | None => []
          end)
  | _ => []
  end.

(** Lines 190-197, from index [i] on. *)
Fixpoint preview_items (i : nat) (items : list value) : list Line :=
  match items with
  | [] => []
  | item :: rest => preview_item i item ++ preview_items (S i) rest
  end.

(** Lines 186-197. *)
Definition preview_lines (all_extracted_content : list value) : list Line :=
  match all_extracted_content with
  | [] => []
  | _ :: _ =>
      [ExtractedTotal (List.length all_extracted_content); PreviewHeader]
      ++ preview_items 0 (firstn 3 all_extracted_content)
  end.

(** Lines 200-203. *)
Definition failed_lines (failed_results : list PageResult) : list Line :=
  match failed_results with
  | [] => []
  | _ :: _ =>
      FailedHeader
      :: map (fun failed_result =>
                FailedUrl (url failed_result) (error_message failed_result))
           failed_results
  end.

(** Lines 114-211. *)
Definition report (result : CrawlOutput) : list Line :=
  match result with
  | ResultList pages =>
      let successful_results := successful_of pages in
      let failed_results := failed_of pages in
      [CrawlCompleted; Crawled (List.length pages);
       SuccessfulCount (List.length successful_results)]
      ++ (match failed_results with
          | [] => []
          | _ :: _ => [FailedCount (List.length failed_results)]
          end)
      ++ pages_lines 0 successful_results
      ++ [ResultsSaved output_path; DetailedSaved detailed_output_path]
      ++ preview_lines (fst (reconcile json_loads pages))
      ++ failed_lines failed_results
  | SingleResult page =>
      if success page
      then [SinglePageSuccessful]
      else [CrawlFailed (error_message page)]
  end.

End Report.

(** ** A decoder for a fragment of JSON

    [json.loads] stays a variable of every theorem.  To run the reconciler
    on concrete pages, [loads_fragment] decodes the JSON texts made of
    arrays, objects, integers, [true], [false], [null] and strings without
    escapes.  Any other text is rejected, the empty text among them. *)

Inductive token : Type :=
| TLBracket | TRBracket | TLBrace | TRBrace | TComma | TColon
| TStr (s : string) | TNum (z : Z) | TTrue | TFalse | TNull.

Definition dquote : ascii := ascii_of_nat 34.

Definition is_space (c : ascii) : bool :=
  match nat_of_ascii c with
  | 9 | 10 | 13 | 32 => true
  | _ => false
  end.

Definition is_digit (c : ascii) : bool :=
  (48 <=? nat_of_ascii c)%nat && (nat_of_ascii c <=? 57)%nat.

Definition digit_value (c : ascii) : Z := Z.of_nat (nat_of_ascii c - 48).

Fixpoint read_digits (s : string) (acc : Z) : Z * string :=
  match s with
  | String c s' =>
      if is_digit c then read_digits s' (10 * acc + digit_value c)%Z else (acc, s)
  | EmptyString => (acc, s)
  end.

(** The body of a string up to its closing quote, and what follows it. *)
Fixpoint read_string (s : string) : option (string * string) :=
  match s with
  | EmptyString => None
  | String c s' =>
      if Ascii.eqb c dquote then Some (EmptyString, s')
      else if Ascii.eqb c "\"%char || (nat_of_ascii c <? 32)%nat then None
      else match read_string s' with
           | Some (body, rest) => Some (String c body, rest)
           | None => None
           end
  end.

(** An integer literal at the head of [s]; a fraction or an exponent after
    it puts the text outside the fragment. *)
Definition read_int (s : string) : option (Z * string) :=
  match s with
  | String c s' =>
      if is_digit c
      then let (z, rest) := read_digits s 0%Z in
           match s', rest with
           | String d _, _ =>
               if Ascii.eqb c "0"%char && is_digit d then None
               else match rest with
                    | String r _ =>
                        if Ascii.eqb r "."%char || Ascii.eqb r "e"%char || Ascii.eqb r "E"%char
                        then None else Some (z, rest)
                    | EmptyString => Some (z, rest)
                    end
           | EmptyString, _ => Some (z, rest)
           end
      else None
  | EmptyString => None
  end.

Definition cons_token (t : token) (ts : option (list token)) : option (list token) :=
  option_map (cons t) ts.

Fixpoint tokens (fuel : nat) (s : string) : option (list token) :=
  match fuel with
  | O => None
  | S fuel' =>
      match s with
      | EmptyString => Some []
      | String c s' =>
          if is_space c then tokens fuel' s'
          else if Ascii.eqb c "["%char then cons_token TLBracket (tokens fuel' s')
          else if Ascii.eqb c "]"%char then cons_token TRBracket (tokens fuel' s')
          else if Ascii.eqb c "{"%char then cons_token TLBrace (tokens fuel' s')
          else if Ascii.eqb c "}"%char then cons_token TRBrace (tokens fuel' s')
          else if Ascii.eqb c ","%char then cons_token TComma (tokens fuel' s')
          else if Ascii.eqb c ":"%char then cons_token TColon (tokens fuel' s')
          else if Ascii.eqb c dquote then
            match read_string s' with
            | Some (body, rest) => cons_token (TStr body) (tokens fuel' rest)
            | None => None
            end
          else if Ascii.eqb c "-"%char then
            match read_int s' with
            | Some (z, rest) => cons_token (TNum (- z)) (tokens fuel' rest)
            | None => None
            end
          else if is_digit c then
            match read_int s with
            | Some (z, rest) => cons_token (TNum z) (tokens fuel' rest)
            | None => None
            end
          else if prefix "true" s then cons_token TTrue (tokens fuel' (slice_from 4 s))
          else if prefix "false" s then cons_token TFalse (tokens fuel' (slice_from 5 s))
          else if prefix "null" s then cons_token TNull (tokens fuel' (slice_from 4 s))
          else None
      end
  end.

(** [d[k] = v]: a key already there keeps its place. *)
Fixpoint dict_set (k : string) (v : value) (entries : list (string * value))
  : list (string * value) :=
  match entries with
  | [] => [(k, v)]
  | (k', v') :: rest =>
      if String.eqb k k' then (k', v) :: rest else (k', v') :: dict_set k v rest
  end.

Definition dict_of (members : list (string * value)) : list (string * value) :=
  fold_left (fun d kv => dict_set (fst kv) (snd kv) d) members [].

Fixpoint parse_value (fuel : nat) (ts : list token) : option (value * list token) :=
  match fuel with
  | O => None
  | S fuel' =>
      match ts with
      | TNull :: r => Some (VNone, r)
      | TTrue :: r => Some (VBool true, r)
      | TFalse :: r => Some (VBool false, r)
      | TNum z :: r => Some (VInt z, r)
      | TStr s :: r => Some (VStr s, r)
      | TLBracket :: TRBracket :: r => Some (VList [], r)
      | TLBracket :: r =>
          match parse_items fuel' r with
          | Some (items, r') => Some (VList items, r')
          | None => None
          end
      | TLBrace :: TRBrace :: r => Some (VDict [], r)
      | TLBrace :: r =>
          match parse_members fuel' r with
          | Some (members, r') => Some (VDict (dict_of members), r')
          | None => None
          end
      | _ => None
      end
  end
with parse_items (fuel : nat) (ts : list token) : option (list value * list token) :=
  match fuel with
  | O => None
  | S fuel' =>
      match parse_value fuel' ts with
      | Some (v, TComma :: r) =>
          match parse_items fuel' r with
          | Some (vs, r') => Some (v :: vs, r')
          | None => None
          end
      | Some (v, TRBracket :: r) => Some ([v], r)
      | _ => None
      end
  end
with parse_members (fuel : nat) (ts : list token)
  : option (list (string * value) * list token) :=
  match fuel with
  | O => None
  | S fuel' =>
      match ts with
      | TStr k :: TColon :: r =>
          match parse_value fuel' r with
          | Some (v, TComma :: r') =>
              match parse_members fuel' r' with
              | Some (ms, r'') => Some ((k, v) :: ms, r'')
              | None => None
              end
          | Some (v, TRBrace :: r') => Some ([(k, v)], r')
          | _ => None
          end
      | _ => None
      end
  end.

Definition loads_fragment (s : string) : option value :=
  match tokens (S (String.length s)) s with
  | Some ts =>
      match parse_value (2 * List.length ts + 2) ts with
      | Some (v, []) => Some v
      | _ => None
      end
  | None => None
  end.

(** JSON text written with single quotes in place of double quotes. *)
Fixpoint json_text (s : string) : string :=
  match s with
  | EmptyString => EmptyString
  | String c s' => String (if Ascii.eqb c "'"%char then dquote else c) (json_text s')
  end.

(** ** What the claim on recorded failures asks of a result set *)

(** The error of a failed fetch is recorded in [manual_results]: a raised
    error as the [error_message] of one of its pages, an unsuccessful page
    as a member. *)
Definition failure_recorded (o : Outcome) (manual_results : list PageResult) : Prop :=
  match o with
  | Raised e => exists p, In p manual_results /\ error_message p = Some e
  | Returned (SingleResult page_result) =>
      success page_result = false -> In page_result manual_results
  | Returned (ResultList _) => True
  end.

(** ** A site to run the crawl against *)

Fixpoint replicate (n : nat) (s : string) : string :=
  match n with
  | O => EmptyString
  | S n' => (s ++ replicate n' s)%string
  end.

Definition fetched (u : string) (content text : option string) : PageResult :=
  {| url := u;
     success := true;
     extracted_content := content;
     markdown := text;
     error_message := None |}.

Definition unreachable (u : string) (error : string) : PageResult :=
  {| url := u;
     success := false;
     extracted_content := None;
     markdown := None;
     error_message := Some error |}.

Definition home_page : PageResult :=
  fetched "https://tradesquareltd.com/"
    (Some (json_text "[{'title': 'Trade Square'}, {'title': 'Welcome'}]"))
    (Some "# Trade Square").

(** A session whose state counts the requests served.  The deep crawl
    finds the home page alone; fetched one by one, the careers page times
    out, the contact page comes back unsuccessful, the works page carries
    no extracted content and the services page carries markup in place of
    JSON. *)
Definition small_site (u : string) (config : CrawlerRunConfig) (n : nat)
  : Outcome * nat :=
  match deep_crawl_strategy config with
  | Some _ => (Returned (ResultList [home_page]), S n)
  | None =>
      if String.eqb u "https://tradesquareltd.com/careers"
      then (Raised "Page.goto: Timeout 60000ms exceeded.", S n)
      else if String.eqb u "https://tradesquareltd.com/contact-us"
      then (Returned (SingleResult (unreachable u "net::ERR_ABORTED")), S n)
      else if String.eqb u "https://tradesquareltd.com/our-works"
      then (Returned (SingleResult (fetched u None (Some "Our works"))), S n)
      else if String.eqb u "https://tradesquareltd.com/our-services"
      then (Returned (SingleResult (fetched u (Some "<ul><li>Design</li></ul>")
                                       (Some "Our services"))), S n)
      else (Returned (SingleResult (fetched u (Some (json_text "[{'title': 'Trade Square'}]"))
                                       (Some "# Trade Square"))), S n)
  end.

(** A session whose deep crawl finds three pages. *)
Definition wide_site (u : string) (config : CrawlerRunConfig) (n : nat)
  : Outcome * nat :=
  match deep_crawl_strategy config with
  | Some _ =>
      (Returned (ResultList
         [home_page;
          fetched "https://tradesquareltd.com/home" None None;
          unreachable "https://tradesquareltd.com/careers" "HTTP 500"]), S n)
  | None => (Raised "net::ERR_INTERNET_DISCONNECTED", S n)
  end.

Definition fresh : @World nat :=
  {| net := 0; fetches := []; stdout := []; files := [] |}.

(** The state in which the fallback pass starts on [small_site]. *)
Definition after_deep_crawl : @World nat :=
  {| net := 1;
     fetches := [(seed_url, run_config)];
     stdout := [TryingManual];
     files := [] |}.

(** Pages for the reconciler. *)
Definition page_A : PageResult :=
  fetched "https://tradesquareltd.com/our-story"
    (Some (json_text "[{'title': 'A0'}, {'title': 'A1'}]")) (Some "Our story").

Definition page_B : PageResult :=
  fetched "https://tradesquareltd.com/our-works"
    (Some (json_text "[{'title': 'B0'}, {'title': 'B1'}]")) (Some "Our works").

Definition page_C : PageResult :=
  fetched "https://tradesquareltd.com/careers"
    (Some (json_text "[{'title': 'C0'}, {'title': 'C1'}]")) None.

Definition titled (t : string) : value := VDict [("title", VStr t)].

Definition markup_page : PageResult :=
  fetched "https://tradesquareltd.com/our-services"
    (Some "<ul><li>Design</li></ul>") (Some "Our services").

Definition empty_payload_page : PageResult :=
  fetched "https://tradesquareltd.com/home" (Some "") (Some "Welcome").

Definition text_230 : string := replicate 23 "0123456789".
Definition text_600 : string := replicate 60 "0123456789".

Definition long_text_page : PageResult :=
  fetched "https://tradesquareltd.com/our-story" None (Some text_230).

Definition no_text_page : PageResult :=
  fetched "https://tradesquareltd.com/careers" None None.

Definition short_text_page : PageResult :=
  fetched "https://tradesquareltd.com/our-works" None (Some "Our works").

Definition very_long_text_page : PageResult :=
  fetched "https://tradesquareltd.com/" None (Some text_600).

(** More pages and sites. *)
Definition empty_list_page : PageResult :=
  fetched "https://tradesquareltd.com/home" (Some "[]") (Some "Welcome").

Definition object_page : PageResult :=
  fetched "https://tradesquareltd.com/careers"
    (Some (json_text "{'name': 'Careers', 'link': '/careers', 'details': 'Open roles'}"))
    (Some "Careers").

Definition blank_text_page : PageResult :=
  fetched "https://tradesquareltd.com/contact-us" None (Some EmptyString).

(** A session whose deep crawl hands back one unsuccessful page. *)
Definition single_site (u : string) (config : CrawlerRunConfig) (n : nat)
  : Outcome * nat :=
  (Returned (SingleResult (unreachable u "net::ERR_NAME_NOT_RESOLVED")), S n).

(** A session whose deep crawl finds nothing and whose fetches all fail. *)
Definition dead_site (u : string) (config : CrawlerRunConfig) (n : nat)
  : Outcome * nat :=
  match deep_crawl_strategy config with
  | Some _ => (Returned (ResultList []), S n)
  | None => (Raised "net::ERR_INTERNET_DISCONNECTED", S n)
  end.

(** [str] on the values whose text is the value itself or a keyword; a
    number or a container is shown as a placeholder. *)
Definition str_text (v : value) : string :=
  match v with
  | VStr s => s
  | VNone => "None"
  | VBool true => "True"
  | VBool false => "False"
  | _ => "<object>"
  end.

(** ** The state left by the deep crawl (lines 72-75) *)

Definition crawled_deep {Net : Type}
           (arun : string -> CrawlerRunConfig -> Net -> Outcome * Net)
           (w : @World Net) : @World Net :=
  {| net := snd (arun seed_url run_config (net w));
     fetches := fetches w ++ [(seed_url, run_config)];
     stdout := stdout w;
     files := files w |}.

(** ** Tests on fetches and lines *)


Definition is_dict (item : value) : bool :=
  match item with
  | VDict _ => true
  | _ => false
  end.

Definition is_title_line (l : Line) : bool :=
  match l with
  | PreviewTitle _ _ => true
  | _ => false
  end.

Definition is_failure_line (l : Line) : bool :=
  match l with
  | FailedCount _ | FailedHeader | FailedUrl _ _ => true
  | _ => false
  end.

Definition details_length_ok (l : Line) : Prop :=
  match l with
  | PreviewDetails details => String.length details <= 103
  | _ => True
  end.

(** * Properties *)

(** ** Slices *)

Lemma slice_to_length (n : nat) (s : string) :
  String.length (slice_to n s) = Nat.min n (String.length s).
Proof.
  revert s; induction n as [|n IH]; intros [|c s]; simpl; auto.
Qed.

Lemma slice_split (n : nat) (s : string) :
  s = (slice_to n s ++ slice_from n s)%string.
Proof.
  revert s; induction n as [|n IH]; intros [|c s]; simpl; try reflexivity.
  now rewrite <- IH.
Qed.

Lemma slice_from_length (n : nat) (s : string) :
  String.length (slice_from n s) = String.length s - n.
Proof.
  revert s; induction n as [|n IH]; intros [|c s]; simpl; auto.
Qed.

Lemma slice_to_all (n : nat) (s : string) :
  String.length s <= n -> slice_to n s = s.
Proof.
  revert s; induction n as [|n IH]; intros [|c s]; simpl; intros H; auto.
  - lia.
  - f_equal; apply IH; lia.
Qed.

Lemma truthy_some (s : string) : s <> EmptyString -> truthy (Some s) = true.
Proof. destruct s; [congruence | reflexivity]. Qed.

Lemma length_pos_nonempty (s : string) : 0 < String.length s -> s <> EmptyString.
Proof. destruct s; simpl; [lia | discriminate]. Qed.

(** ** The loops as list functions *)

Section ReconcileFacts.

Variable json_loads : string -> option value.

Lemma perform_app (acc : list value) (a : Action) :
  perform acc a = acc ++ perform [] a.
Proof. destruct a; reflexivity. Qed.

Lemma process_pages_from (pages : list PageResult) (acc : Accum) :
  all_extracted_content (fold_left (process_page json_loads) pages acc)
  = all_extracted_content acc ++ flat_map (page_records json_loads) pages.
Proof.
  revert acc; induction pages as [|p pages IH]; intros acc; simpl.
  - now rewrite app_nil_r.
  - rewrite IH; simpl. rewrite perform_app, <- app_assoc. reflexivity.
Qed.

Lemma crawled_urls_from (pages : list PageResult) (acc : Accum) :
  crawled_urls (fold_left (process_page json_loads) pages acc)
  = crawled_urls acc ++ map url pages.
Proof.
  revert acc; induction pages as [|p pages IH]; intros acc; simpl.
  - now rewrite app_nil_r.
  - rewrite IH; simpl. now rewrite <- app_assoc.
Qed.

Lemma actions_from (pages : list PageResult) (acc : Accum) :
  all_extracted_content (fold_left (process_page json_loads) pages acc)
  = fold_left perform (map (page_action json_loads) pages) (all_extracted_content acc).
Proof.
  revert acc; induction pages as [|p pages IH]; intros acc; simpl.
  - reflexivity.
  - now rewrite IH.
Qed.

Lemma build_detailed_from (pages : list PageResult) (acc : list value) :
  fold_left (fun detailed_data page_result => detailed_data ++ [page_data page_result])
    pages acc
  = acc ++ map page_data pages.
Proof.
  revert acc; induction pages as [|p pages IH]; intros acc; simpl.
  - now rewrite app_nil_r.
  - rewrite IH, <- app_assoc. reflexivity.
Qed.

Lemma aggregate_flat_map (result : list PageResult) :
  fst (reconcile json_loads result) = flat_map (page_records json_loads) (successful_of result).
Proof. unfold reconcile, process_pages; simpl. now rewrite process_pages_from. Qed.

Lemma detailed_map (result : list PageResult) :
  snd (reconcile json_loads result) = map page_data (successful_of result).
Proof. unfold reconcile, build_detailed; simpl. now rewrite build_detailed_from. Qed.

Lemma successful_app (l1 l2 : list PageResult) :
  successful_of (l1 ++ l2) = successful_of l1 ++ successful_of l2.
Proof. apply filter_app. Qed.

Lemma aggregate_app (l1 l2 : list PageResult) :
  fst (reconcile json_loads (l1 ++ l2))
  = fst (reconcile json_loads l1) ++ fst (reconcile json_loads l2).
Proof. now rewrite !aggregate_flat_map, successful_app, flat_map_app. Qed.

Lemma detailed_app (l1 l2 : list PageResult) :
  snd (reconcile json_loads (l1 ++ l2))
  = snd (reconcile json_loads l1) ++ snd (reconcile json_loads l2).
Proof. now rewrite !detailed_map, successful_app, map_app. Qed.

Lemma reconcile_one (p : PageResult) :
  success p = true ->
  reconcile json_loads [p] = (page_records json_loads p, [page_data p]).
Proof.
  intros Hs. unfold reconcile, process_pages, build_detailed, successful_of.
  simpl. rewrite Hs. reflexivity.
Qed.

Lemma page_action_absent (p : PageResult) :
  truthy (extracted_content p) = false ->
  page_action json_loads p = Append (no_extraction_entry p).
Proof. unfold page_action. now intros ->. Qed.

Lemma page_action_present (p : PageResult) (raw : string) :
  extracted_content p = Some raw -> raw <> EmptyString ->
  page_action json_loads p =
    match json_loads raw with
    | Some (VList content) => Extend content
    | Some content => Append content
    | None => Append (non_json_entry p raw)
    end.
Proof.
  intros He Hne. unfold page_action. rewrite He, (truthy_some _ Hne). reflexivity.
Qed.

End ReconcileFacts.

(** ** The fallback pass *)

Section CrawlFacts.

Context {Net : Type}.
Variable arun : string -> CrawlerRunConfig -> Net -> Outcome * Net.
Variable json_loads : string -> option value.

Implicit Type w : @World Net.

Lemma fetch_each_length (urls : list string) (n : Net) :
  List.length (fst (fetch_each arun urls n)) = List.length urls.
Proof.
  revert n; induction urls as [|u urls IH]; intros n; simpl; auto.
  destruct (arun u manual_config n) as [o n'].
  specialize (IH n'). destruct (fetch_each arun urls n') as [os n'']. simpl in *.
  now rewrite IH.
Qed.

(** One turn of the loop: a fetch, two lines, and the pages kept. *)
Lemma crawl_manually_step (acc : list PageResult) (u : string) w :
  crawl_manually arun acc u w =
    (acc ++ kept (fst (arun u manual_config (net w))),
     {| net := snd (arun u manual_config (net w));
        fetches := fetches w ++ [(u, manual_config)];
        stdout := stdout w
                  ++ [ManuallyCrawling u;
                      report_of u (fst (arun u manual_config (net w)))];
        files := files w |}).
Proof.
  unfold crawl_manually, bind, print, await_arun, ret; simpl.
  destruct (arun u manual_config (net w)) as [[[pages|page]|e] n']; simpl.
  - now rewrite app_nil_r, <- app_assoc.
  - destruct (success page); simpl; now rewrite ?app_nil_r, <- app_assoc.
  - now rewrite app_nil_r, <- app_assoc.
Qed.

(** The whole loop, for any accumulator and any starting state. *)
Lemma manual_loop_from (urls : list string) (acc : list PageResult) w :
  manual_loop arun urls acc w =
    (acc ++ flat_map kept (fst (fetch_each arun urls (net w))),
     {| net := snd (fetch_each arun urls (net w));
        fetches := fetches w ++ map (fun u => (u, manual_config)) urls;
        stdout := stdout w ++ reports_of urls (fst (fetch_each arun urls (net w)));
        files := files w |}).
Proof.
  revert acc w; induction urls as [|u urls IH]; intros acc w.
  - destruct w; simpl. unfold ret, reports_of; simpl. now rewrite !app_nil_r.
  - simpl manual_loop. unfold bind at 1. rewrite crawl_manually_step, IH.
    simpl. destruct (arun u manual_config (net w)) as [o n']; simpl.
    destruct (fetch_each arun urls n') as [os n'']; simpl.
    unfold reports_of; simpl.
    rewrite <- !app_assoc. reflexivity.
Qed.

Lemma kept_successful (o : Outcome) :
  Forall (fun p => success p = true) (kept o).
Proof.
  destruct o as [[pages|page]|e]; simpl; auto.
  destruct (success page) eqn:Hs; auto.
Qed.

Lemma kept_all_successful (outcomes : list Outcome) :
  Forall (fun p => success p = true) (flat_map kept outcomes).
Proof.
  induction outcomes as [|o os IH]; simpl; auto.
  apply Forall_app; split; [apply kept_successful | exact IH].
Qed.

Lemma reports_of_in (urls : list string) (outcomes : list Outcome)
      (i : nat) (u : string) (o : Outcome) :
  nth_error urls i = Some u -> nth_error outcomes i = Some o ->
  In (report_of u o) (reports_of urls outcomes).
Proof.
  revert outcomes i; induction urls as [|u' urls IH]; intros [|o' os] [|i] Hu Ho;
    simpl in *; try discriminate.
  - injection Hu as ->; injection Ho as ->. unfold reports_of; simpl. auto.
  - unfold reports_of; simpl. right; right. apply (IH os i); assumption.
Qed.

Lemma use_manual_list (pages manual_results : list PageResult) :
  use_manual (ResultList pages) manual_results = true
  <-> List.length pages < List.length manual_results.
Proof. simpl. apply Nat.ltb_lt. Qed.

Lemma manual_loop_results w :
  fst (manual_loop arun urls_to_crawl [] w) = fixed_list_results arun (net w).
Proof. rewrite manual_loop_from. reflexivity. Qed.

(** The state in which line 114 is reached after a deep crawl that
    returned fewer than three pages. *)
Lemma fallback_limited (auto : list PageResult) w :
  List.length auto < 3 ->
  fallback arun (ResultList auto) w =
    let manual_results := fixed_list_results arun (net w) in
    let outcomes := fst (fetch_each arun urls_to_crawl (net w)) in
    (ResultList (if use_manual (ResultList auto) manual_results
                 then manual_results else auto),
     {| net := snd (fetch_each arun urls_to_crawl (net w));
        fetches := fetches w ++ map (fun u => (u, manual_config)) urls_to_crawl;
        stdout := (stdout w ++ [TryingManual]) ++ reports_of urls_to_crawl outcomes
                  ++ (if use_manual (ResultList auto) manual_results
                      then [UsingManual (List.length manual_results)] else []);
        files := files w |}).
Proof.
  intros Hlt. unfold fallback.
  assert (Hf : found_limited (ResultList auto) = true) by (apply Nat.ltb_lt; exact Hlt).
  rewrite Hf. unfold bind at 1. unfold print at 1. unfold bind at 1.
  rewrite manual_loop_from. cbn [net fetches stdout files app].
  fold (fixed_list_results arun (net w)).
  destruct (use_manual (ResultList auto) (fixed_list_results arun (net w))).
  - unfold bind, print, ret; cbn [net fetches stdout files].
    now rewrite <- !app_assoc.
  - unfold ret. now rewrite app_nil_r.
Qed.

Lemma fallback_enough (auto : list PageResult) w :
  3 <= List.length auto ->
  fallback arun (ResultList auto) w = (ResultList auto, w).
Proof.
  intros Hge. unfold fallback.
  assert (Hf : found_limited (ResultList auto) = false) by (apply Nat.ltb_ge; exact Hge).
  now rewrite Hf.
Qed.

Lemma handle_list (pages : list PageResult) w :
  handle json_loads (ResultList pages) w =
    (Return 0%Z,
     {| net := net w;
        fetches := fetches w;
        stdout := stdout w;
        files := files w
                 ++ [(output_path, fst (reconcile json_loads pages));
                     (detailed_output_path, snd (reconcile json_loads pages))] |}).
Proof.
  unfold handle. destruct (reconcile json_loads pages) as [aggregate detailed_data].
  unfold bind, json_dump, ret; cbn [net fetches stdout files fst snd].
  now rewrite <- app_assoc.
Qed.

(** [main] after a deep crawl that returned the list [auto]. *)
Lemma main_list (auto : list PageResult) (n1 : Net) w :
  arun seed_url run_config (net w) = (Returned (ResultList auto), n1) ->
  main arun json_loads w =
    let w1 := {| net := n1;
                 fetches := fetches w ++ [(seed_url, run_config)];
                 stdout := stdout w;
                 files := files w |} in
    let (result, w2) := fallback arun (ResultList auto) w1 in
    handle json_loads result w2.
Proof.
  intros Hrun. unfold main. unfold bind at 1. unfold await_arun. rewrite Hrun.
  unfold bind. reflexivity.
Qed.

End CrawlFacts.

(** ** Previews *)

Lemma markdown_preview_text (p : PageResult) (m : string) :
  markdown p = Some m -> m <> EmptyString ->
  markdown_preview p = (slice_to 200 m ++ "...")%string.
Proof.
  intros Hm Hne. unfold markdown_preview. rewrite Hm, (truthy_some _ Hne). reflexivity.
Qed.

Lemma markdown_preview_none (p : PageResult) :
  markdown p = None -> markdown_preview p = "No content".
Proof. intros Hm. unfold markdown_preview. now rewrite Hm. Qed.

Lemma markdown_field_long (p : PageResult) (m : string) :
  markdown p = Some m -> 500 < String.length m ->
  markdown_field p = Some (slice_to 500 m ++ "...")%string.
Proof.
  intros Hm Hlen. unfold markdown_field. rewrite Hm.
  assert (Hne : m <> EmptyString) by (apply length_pos_nonempty; lia).
  rewrite (truthy_some _ Hne). simpl.
  apply Nat.ltb_lt in Hlen. now rewrite Hlen.
Qed.

Lemma markdown_field_short (p : PageResult) (m : string) :
  markdown p = Some m -> String.length m <= 500 ->
  markdown_field p = Some m.
Proof.
  intros Hm Hlen. unfold markdown_field. rewrite Hm.
  apply Nat.ltb_ge in Hlen. rewrite Hlen, andb_false_r. reflexivity.
Qed.

Lemma markdown_field_none (p : PageResult) :
  markdown p = None -> markdown_field p = None.
Proof. intros Hm. unfold markdown_field. now rewrite Hm. Qed.

Lemma in_successful (result : list PageResult) (p : PageResult) :
  In p result -> success p = true -> In p (successful_of result).
Proof. intros Hin Hs. apply filter_In. split; assumption. Qed.

(** The branch a page takes, by the shape of its extracted content. *)
Lemma page_action_cases (json_loads : string -> option value) (p : PageResult) :
  (exists raw content,
      extracted_content p = Some raw /\ json_loads raw = Some (VList content)
      /\ page_action json_loads p = Extend content)
  \/ (exists raw content,
         extracted_content p = Some raw /\ json_loads raw = Some content
         /\ (forall items, content <> VList items)
         /\ page_action json_loads p = Append content)
  \/ (exists raw,
         extracted_content p = Some raw /\ json_loads raw = None
         /\ page_action json_loads p = Append (non_json_entry p raw))
  \/ (truthy (extracted_content p) = false
      /\ page_action json_loads p = Append (no_extraction_entry p)).
Proof.
  unfold page_action.
  destruct (extracted_content p) as [[|c raw]|] eqn:He; simpl.
  - right; right; right. auto.
  - destruct (json_loads (String c raw)) as [content|] eqn:Hl.
    + destruct content;
        try (right; left; exists (String c raw); eexists;
             repeat split; [exact Hl | intros items; discriminate]).
      left. exists (String c raw), items. auto.
    + right; right; left. exists (String c raw). auto.
  - right; right; right. auto.
Qed.

(** * The claims *)

(** C4: every page of the result set with [success = true] yields exactly
    one summary in the detailed list (the list is the image of the
    successful pages, one entry each, in order) and runs exactly one
    statement against the aggregate list: an [extend] with the parsed
    sequence, an [append] of the parsed single value, or an [append] of a
    synthesized fallback record.  Its summary is in the detailed output, so
    no successful page is absent from both outputs. *)
Theorem reconciliation_complete
        (json_loads : string -> option value)
        (result : list PageResult) (p : PageResult) :
  In p result -> success p = true ->
  snd (reconcile json_loads result) = map page_data (successful_of result)
  /\ List.length (snd (reconcile json_loads result)) = List.length (successful_of result)
  /\ fst (reconcile json_loads result)
     = fold_left perform (map (page_action json_loads) (successful_of result)) []
  /\ In p (successful_of result)
  /\ In (page_data p) (snd (reconcile json_loads result))
  /\ ((exists raw content,
          extracted_content p = Some raw /\ json_loads raw = Some (VList content)
          /\ page_action json_loads p = Extend content)
      \/ (exists raw content,
             extracted_content p = Some raw /\ json_loads raw = Some content
             /\ (forall items, content <> VList items)
             /\ page_action json_loads p = Append content)
      \/ (exists raw,
             extracted_content p = Some raw /\ json_loads raw = None
             /\ page_action json_loads p = Append (non_json_entry p raw))
      \/ (truthy (extracted_content p) = false
          /\ page_action json_loads p = Append (no_extraction_entry p))).
Proof.
  intros Hin Hs.
  pose proof (in_successful result p Hin Hs) as Hp.
  repeat split.
  - apply detailed_map.
  - rewrite detailed_map. apply length_map.
  - unfold reconcile, process_pages; simpl. now rewrite actions_from.
  - exact Hp.
  - rewrite detailed_map. now apply in_map.
  - apply page_action_cases.
Qed.

Lemma reconciliation_complete_witness :
  In (page_data markup_page)
     (snd (reconcile loads_fragment [page_A; unreachable "https://tradesquareltd.com/home" "HTTP 404"; markup_page]))
  /\ List.length (snd (reconcile loads_fragment
                         [page_A; unreachable "https://tradesquareltd.com/home" "HTTP 404"; markup_page]))
     = 2.
Proof.
  destruct (reconciliation_complete loads_fragment
              [page_A; unreachable "https://tradesquareltd.com/home" "HTTP 404"; markup_page]
              markup_page)
    as (_ & Hlen & _ & _ & Hsummary & _).
  - simpl; auto.
  - reflexivity.
  - split; [exact Hsummary | exact Hlen].
Defined.

(** C5 (as amended): a successful page whose extracted content is a
    non-empty string that [json.loads] rejects adds exactly one record to
    the aggregate list, holding the page's URL and the raw string; the
    pages before and after it are reconciled as they would be without it,
    and the page still gets its summary. *)
Theorem non_json_fallback_record
        (json_loads : string -> option value)
        (before after : list PageResult) (p : PageResult) (raw : string) :
  success p = true ->
  extracted_content p = Some raw ->
  raw <> EmptyString ->
  json_loads raw = None ->
  fst (reconcile json_loads (before ++ p :: after))
  = fst (reconcile json_loads before)
    ++ [VDict [("url", VStr (url p)); ("content", VStr raw)]]
    ++ fst (reconcile json_loads after)
  /\ snd (reconcile json_loads (before ++ p :: after))
     = snd (reconcile json_loads before)
       ++ [page_data p]
       ++ snd (reconcile json_loads after).
Proof.
  intros Hs He Hne Hl.
  change (p :: after) with ([p] ++ after).
  rewrite !aggregate_app, !detailed_app, (reconcile_one _ _ Hs). simpl fst; simpl snd.
  unfold page_records. rewrite (page_action_present _ _ _ He Hne), Hl.
  split; reflexivity.
Qed.

Lemma non_json_fallback_record_witness :
  fst (reconcile loads_fragment ([page_A] ++ markup_page :: [page_B]))
  = [titled "A0"; titled "A1";
     VDict [("url", VStr "https://tradesquareltd.com/our-services");
            ("content", VStr "<ul><li>Design</li></ul>")];
     titled "B0"; titled "B1"].
Proof.
  destruct (non_json_fallback_record loads_fragment [page_A] [page_B] markup_page
              "<ul><li>Design</li></ul>") as [Haggregate _].
  - reflexivity.
  - reflexivity.
  - discriminate.
  - reflexivity.
  - rewrite Haggregate. reflexivity.
Defined.

(** C5, as stated, fails: a successful page whose extracted content is
    present and empty is rejected by the decoder, yet the record added for
    it is the no-extraction one, without a [content] field. *)
Lemma empty_payload_not_echoed :
  success empty_payload_page = true
  /\ extracted_content empty_payload_page = Some EmptyString
  /\ loads_fragment EmptyString = None
  /\ fst (reconcile loads_fragment [empty_payload_page])
     = [VDict [("url", VStr "https://tradesquareltd.com/home");
               ("status", VStr "no_extraction");
               ("markdown_preview", VStr "Welcome...")]]
  /\ fst (reconcile loads_fragment [empty_payload_page])
     <> [VDict [("url", VStr (url empty_payload_page)); ("content", VStr EmptyString)]].
Proof.
  repeat split; try reflexivity.
  vm_compute. discriminate.
Qed.

(** C6: a successful page without extracted content adds one record with
    its URL, the status [no_extraction] and a preview.  For a rendered text
    of 230 characters the preview is its first 200 characters followed by
    [...]; without rendered text it is [No content]. *)
Theorem no_extraction_preview
        (json_loads : string -> option value) (p : PageResult) :
  success p = true ->
  extracted_content p = None ->
  page_records json_loads p
  = [VDict [("url", VStr (url p));
            ("status", VStr "no_extraction");
            ("markdown_preview", VStr (markdown_preview p))]]
  /\ fst (reconcile json_loads [p]) = page_records json_loads p
  /\ (forall m, markdown p = Some m -> String.length m = 230 ->
        markdown_preview p = (slice_to 200 m ++ "...")%string
        /\ String.length (slice_to 200 m) = 200
        /\ m = (slice_to 200 m ++ slice_from 200 m)%string
        /\ String.length (slice_from 200 m) = 30)
  /\ (markdown p = None -> markdown_preview p = "No content").
Proof.
  intros Hs He. repeat split.
  - unfold page_records. rewrite page_action_absent by now rewrite He. reflexivity.
  - now rewrite reconcile_one.
  - apply markdown_preview_text; [assumption | apply length_pos_nonempty; lia].
  - rewrite slice_to_length. lia.
  - apply slice_split.
  - rewrite slice_from_length. lia.
  - apply markdown_preview_none.
Qed.

Lemma no_extraction_preview_witness :
  markdown_preview long_text_page = (replicate 20 "0123456789" ++ "...")%string
  /\ markdown_preview no_text_page = "No content".
Proof.
  destruct (no_extraction_preview loads_fragment long_text_page eq_refl eq_refl)
    as (_ & _ & Hlong & _).
  destruct (no_extraction_preview loads_fragment no_text_page eq_refl eq_refl)
    as (_ & _ & _ & Hnone).
  split.
  - destruct (Hlong text_230 eq_refl eq_refl) as [Hpreview _].
    rewrite Hpreview. reflexivity.
  - apply Hnone. reflexivity.
Defined.

(** C7: the aggregate list is the concatenation, in page order, of what
    each successful page adds, and the detailed list is the image of the
    successful pages in the same order; reconciling two lists one after
    the other concatenates their outputs.  For three successful pages A, B
    and C whose extracted contents parse to the sequences [a0; a1],
    [b0; b1] and [c0; c1], the aggregate list is
    [a0; a1; b0; b1; c0; c1], of length 6. *)
Theorem ordering_invariant
        (json_loads : string -> option value)
        (A B C : PageResult) (ra rb rc : string) (a0 a1 b0 b1 c0 c1 : value) :
  json_loads EmptyString = None ->
  success A = true -> success B = true -> success C = true ->
  extracted_content A = Some ra -> json_loads ra = Some (VList [a0; a1]) ->
  extracted_content B = Some rb -> json_loads rb = Some (VList [b0; b1]) ->
  extracted_content C = Some rc -> json_loads rc = Some (VList [c0; c1]) ->
  fst (reconcile json_loads [A; B; C]) = [a0; a1; b0; b1; c0; c1]
  /\ List.length (fst (reconcile json_loads [A; B; C])) = 6
  /\ snd (reconcile json_loads [A; B; C]) = [page_data A; page_data B; page_data C]
  /\ (forall result,
        fst (reconcile json_loads result)
        = flat_map (page_records json_loads) (successful_of result)
        /\ snd (reconcile json_loads result) = map page_data (successful_of result))
  /\ (forall l1 l2,
        fst (reconcile json_loads (l1 ++ l2))
        = fst (reconcile json_loads l1) ++ fst (reconcile json_loads l2)
        /\ snd (reconcile json_loads (l1 ++ l2))
           = snd (reconcile json_loads l1) ++ snd (reconcile json_loads l2)).
Proof.
  intros Hempty HsA HsB HsC HeA HlA HeB HlB HeC HlC.
  assert (Hne : forall r v, json_loads r = Some v -> r <> EmptyString).
  { intros r v Hr ->. rewrite Hempty in Hr. discriminate. }
  assert (Hrec : forall P r x y,
             extracted_content P = Some r -> json_loads r = Some (VList [x; y]) ->
             page_records json_loads P = [x; y]).
  { intros P r x y He Hl. unfold page_records.
    rewrite (page_action_present _ _ _ He (Hne _ _ Hl)), Hl. reflexivity. }
  assert (Hagg : fst (reconcile json_loads [A; B; C]) = [a0; a1; b0; b1; c0; c1]).
  { rewrite aggregate_flat_map. unfold successful_of; simpl.
    rewrite HsA, HsB, HsC; simpl.
    rewrite (Hrec _ _ _ _ HeA HlA), (Hrec _ _ _ _ HeB HlB), (Hrec _ _ _ _ HeC HlC).
    reflexivity. }
  repeat split.
  - exact Hagg.
  - now rewrite Hagg.
  - rewrite detailed_map. unfold successful_of; simpl. now rewrite HsA, HsB, HsC.
  - apply aggregate_flat_map.
  - apply detailed_map.
  - apply aggregate_app.
  - apply detailed_app.
Qed.

Lemma ordering_invariant_witness :
  fst (reconcile loads_fragment [page_A; page_B; page_C])
  = [titled "A0"; titled "A1"; titled "B0"; titled "B1"; titled "C0"; titled "C1"].
Proof.
  refine (proj1 (ordering_invariant loads_fragment page_A page_B page_C
                   _ _ _ _ _ _ _ _ _
                   eq_refl eq_refl eq_refl eq_refl
                   eq_refl _ eq_refl _ eq_refl _)); reflexivity.
Defined.

(** C9: the summary built for a successful page of the result set is in
    the detailed list and holds the page's URL, its success flag, its
    extracted content as received and a preview of its rendered text: the
    first 500 characters followed by [...] when the text is longer than
    500 characters, the text itself otherwise. *)
Theorem crawl_summary_fields
        (json_loads : string -> option value)
        (result : list PageResult) (p : PageResult) :
  In p result -> success p = true ->
  In (page_data p) (snd (reconcile json_loads result))
  /\ page_data p
     = VDict [("url", VStr (url p));
              ("success", VBool true);
              ("extracted_content", of_opt_str (extracted_content p));
              ("markdown", of_opt_str (markdown_field p))]
  /\ markdown_field p
     = match markdown p with
       | Some m =>
           if (500 <? String.length m)%nat
           then Some (slice_to 500 m ++ "...")%string
           else Some m
       | None => None
       end
  /\ (forall m, markdown p = Some m -> 500 < String.length m ->
        String.length (slice_to 500 m) = 500
        /\ m = (slice_to 500 m ++ slice_from 500 m)%string).
Proof.
  intros Hin Hs. repeat split.
  - rewrite detailed_map. apply in_map. now apply in_successful.
  - unfold page_data. now rewrite Hs.
  - destruct (markdown p) as [m|] eqn:Hm.
    + destruct (500 <? String.length m)%nat eqn:Hlen.
      * apply markdown_field_long; [assumption | now apply Nat.ltb_lt].
      * apply markdown_field_short; [assumption | now apply Nat.ltb_ge].
    + now apply markdown_field_none.
  - rewrite slice_to_length. lia.
  - apply slice_split.
Qed.

Lemma crawl_summary_fields_witness :
  markdown_field very_long_text_page = Some (replicate 50 "0123456789" ++ "...")%string
  /\ markdown_field short_text_page = Some "Our works"
  /\ In (page_data very_long_text_page)
        (snd (reconcile loads_fragment [short_text_page; very_long_text_page])).
Proof.
  destruct (crawl_summary_fields loads_fragment [short_text_page; very_long_text_page]
              very_long_text_page) as (Hin & _ & Hlong & _).
  - simpl; auto.
  - reflexivity.
  - destruct (crawl_summary_fields loads_fragment [short_text_page; very_long_text_page]
                short_text_page) as (_ & _ & Hshort & _).
    + simpl; auto.
    + reflexivity.
    + split; [rewrite Hlong; reflexivity | split; [rewrite Hshort; reflexivity | exact Hin]].
Defined.

(** C10: for a successful page without extracted content whose rendered
    text is non-empty and shorter than 200 characters, the preview of the
    no-extraction record is the whole text followed by [...]: the marker
    comes with every non-empty text.  The summary of the same page keeps
    the text without a marker, which it adds only past 500 characters. *)
Theorem short_preview_keeps_marker
        (json_loads : string -> option value) (p : PageResult) (m : string) :
  success p = true ->
  extracted_content p = None ->
  markdown p = Some m ->
  m <> EmptyString ->
  String.length m < 200 ->
  markdown_preview p = (m ++ "...")%string
  /\ fst (reconcile json_loads [p])
     = [VDict [("url", VStr (url p));
               ("status", VStr "no_extraction");
               ("markdown_preview", VStr (m ++ "..."))]]
  /\ markdown_field p = Some m
  /\ dict_get "markdown" [("url", VStr (url p));
                          ("success", VBool (success p));
                          ("extracted_content", of_opt_str (extracted_content p));
                          ("markdown", of_opt_str (markdown_field p))]
     = Some (VStr m).
Proof.
  intros Hs He Hm Hne Hlen.
  assert (Hpreview : markdown_preview p = (m ++ "...")%string).
  { rewrite (markdown_preview_text _ _ Hm Hne), slice_to_all by lia. reflexivity. }
  assert (Hfield : markdown_field p = Some m) by (apply markdown_field_short; [assumption | lia]).
  repeat split.
  - exact Hpreview.
  - rewrite (reconcile_one _ _ Hs). simpl. unfold page_records.
    rewrite page_action_absent by now rewrite He.
    simpl. unfold no_extraction_entry. now rewrite Hpreview.
  - exact Hfield.
  - simpl. now rewrite Hfield.
Qed.

Lemma short_preview_keeps_marker_witness :
  markdown_preview short_text_page = "Our works..."
  /\ markdown_field short_text_page = Some "Our works".
Proof.
  destruct (short_preview_keeps_marker loads_fragment short_text_page "Our works")
    as (Hpreview & _ & Hfield & _).
  - reflexivity.
  - reflexivity.
  - reflexivity.
  - discriminate.
  - simpl; lia.
  - split; [exact Hpreview | exact Hfield].
Defined.

(** C1: when the fallback pass has run, the fixed-list result set takes
    the place of the automated one exactly when it holds strictly more
    pages; the test reads the two lengths and nothing else, whatever the
    [success] flags in either set. *)
Theorem fallback_selection
        {Net : Type} (arun : string -> CrawlerRunConfig -> Net -> Outcome * Net)
        (w : @World Net) (auto : list PageResult) :
  List.length auto < 3 ->
  let manual_results :=
    fst (manual_loop arun urls_to_crawl [] (snd (print TryingManual w))) in
  (use_manual (ResultList auto) manual_results = true
   <-> List.length auto < List.length manual_results)
  /\ fst (fallback arun (ResultList auto) w)
     = ResultList (if use_manual (ResultList auto) manual_results
                   then manual_results else auto)
  /\ (forall auto' manual' : list PageResult,
        use_manual (ResultList auto') manual'
        = (List.length auto' <? List.length manual')%nat).
Proof.
  intros Hlt manual_results. subst manual_results.
  rewrite manual_loop_results. cbn [print snd net].
  split; [apply use_manual_list | split].
  - rewrite (fallback_limited arun auto w Hlt). reflexivity.
  - reflexivity.
Qed.

Lemma fallback_selection_witness :
  fst (fallback small_site (ResultList [home_page]) fresh)
  = ResultList
      [ fetched "https://tradesquareltd.com/"
          (Some (json_text "[{'title': 'Trade Square'}]")) (Some "# Trade Square");
        fetched "https://tradesquareltd.com/home"
          (Some (json_text "[{'title': 'Trade Square'}]")) (Some "# Trade Square");
        fetched "https://tradesquareltd.com/our-story"
          (Some (json_text "[{'title': 'Trade Square'}]")) (Some "# Trade Square");
        fetched "https://tradesquareltd.com/our-works" None (Some "Our works");
        fetched "https://tradesquareltd.com/our-services"
          (Some "<ul><li>Design</li></ul>") (Some "Our services") ].
Proof.
  destruct (fallback_selection small_site fresh [home_page]) as (_ & Hchosen & _).
  - simpl; lia.
  - rewrite Hchosen. reflexivity.
Defined.

(** C2: after a deep crawl that returned a list of fewer than three
    pages, [arun] is awaited once on each URL of [urls_to_crawl], in the
    order of the list, with the manual configuration; after a deep crawl
    that returned three pages or more, the deep crawl is the only fetch of
    the run. *)
Theorem fallback_threshold
        {Net : Type} (arun : string -> CrawlerRunConfig -> Net -> Outcome * Net)
        (json_loads : string -> option value)
        (w : @World Net) (auto : list PageResult) (n1 : Net) :
  arun seed_url run_config (net w) = (Returned (ResultList auto), n1) ->
  (List.length auto < 3 ->
   fetches (snd (main arun json_loads w))
   = fetches w ++ (seed_url, run_config)
       :: map (fun u => (u, manual_config)) urls_to_crawl)
  /\ (3 <= List.length auto ->
      fetches (snd (main arun json_loads w))
      = fetches w ++ [(seed_url, run_config)]).
Proof.
  intros Hrun. rewrite (main_list arun json_loads auto n1 w Hrun). cbv zeta.
  split; intros Hlen.
  - rewrite (fallback_limited arun auto _ Hlen). cbv beta iota zeta.
    rewrite handle_list. cbn [snd fetches]. now rewrite <- app_assoc.
  - rewrite (fallback_enough arun auto _ Hlen), handle_list. reflexivity.
Qed.

Lemma fallback_threshold_witness :
  fetches (snd (main small_site loads_fragment fresh))
  = (seed_url, run_config) :: map (fun u => (u, manual_config)) urls_to_crawl
  /\ fetches (snd (main wide_site loads_fragment fresh)) = [(seed_url, run_config)].
Proof.
  split.
  - apply (proj1 (fallback_threshold small_site loads_fragment fresh [home_page] 1 eq_refl)).
    simpl; lia.
  - refine (proj2 (fallback_threshold wide_site loads_fragment fresh _ 1 eq_refl) _).
    simpl; lia.
Defined.

(** C8: the two files written by a run whose deep crawl returned a list
    are the reconciliation of one list, the automated one or the
    fixed-list one, the latter exactly when the fallback pass ran and kept
    more pages; no other list is ever reconciled. *)
Theorem one_active_result_set
        {Net : Type} (arun : string -> CrawlerRunConfig -> Net -> Outcome * Net)
        (json_loads : string -> option value)
        (w : @World Net) (auto : list PageResult) (n1 : Net) :
  arun seed_url run_config (net w) = (Returned (ResultList auto), n1) ->
  let manual_results :=
    fst (manual_loop arun urls_to_crawl []
           {| net := n1;
              fetches := fetches w ++ [(seed_url, run_config)];
              stdout := stdout w ++ [TryingManual];
              files := files w |}) in
  let active :=
    if ((List.length auto <? 3) && (List.length auto <? List.length manual_results))%nat
    then manual_results else auto in
  (active = auto \/ active = manual_results)
  /\ fst (main arun json_loads w) = Return 0%Z
  /\ files (snd (main arun json_loads w))
     = files w
       ++ [(output_path, fst (reconcile json_loads active));
           (detailed_output_path, snd (reconcile json_loads active))].
Proof.
  intros Hrun manual_results active. subst active manual_results.
  rewrite manual_loop_results. cbn [net].
  rewrite (main_list arun json_loads auto n1 w Hrun). cbv zeta.
  destruct (List.length auto <? 3)%nat eqn:Hlen.
  - apply Nat.ltb_lt in Hlen.
    rewrite (fallback_limited arun auto _ Hlen). cbv beta iota zeta. cbn [net andb].
    change (List.length auto <? List.length (fixed_list_results arun n1))%nat
      with (use_manual (ResultList auto) (fixed_list_results arun n1)).
    destruct (use_manual (ResultList auto) (fixed_list_results arun n1));
      rewrite handle_list; cbn [fst snd files]; auto.
  - apply Nat.ltb_ge in Hlen.
    rewrite (fallback_enough arun auto _ Hlen), handle_list. cbn [fst snd files andb]. auto.
Qed.

Lemma one_active_result_set_witness :
  files (snd (main wide_site loads_fragment fresh))
  = [(output_path,
      [titled "Trade Square"; titled "Welcome";
       VDict [("url", VStr "https://tradesquareltd.com/home");
              ("status", VStr "no_extraction");
              ("markdown_preview", VStr "No content")]]);
     (detailed_output_path,
      [page_data home_page;
       page_data (fetched "https://tradesquareltd.com/home" None None)])].
Proof.
  destruct (one_active_result_set wide_site loads_fragment fresh _ 1 eq_refl)
    as (_ & _ & Hfiles).
  rewrite Hfiles. reflexivity.
Defined.

(** C3 (as amended): in the fallback pass, a fetch that raises or that
    returns an unsuccessful page is caught and reported on standard output
    with its error; the page is left out of the fixed-list result set,
    which keeps the successful pages alone, in order.  Every URL of the
    list is still fetched, and the run ends with exit code 0. *)
Theorem fallback_failures_reported_and_skipped
        {Net : Type} (arun : string -> CrawlerRunConfig -> Net -> Outcome * Net)
        (json_loads : string -> option value)
        (w : @World Net) (auto : list PageResult) (n1 : Net) :
  arun seed_url run_config (net w) = (Returned (ResultList auto), n1) ->
  List.length auto < 3 ->
  let outcomes := fst (fetch_each arun urls_to_crawl n1) in
  let manual_results :=
    fst (manual_loop arun urls_to_crawl []
           {| net := n1;
              fetches := fetches w ++ [(seed_url, run_config)];
              stdout := stdout w ++ [TryingManual];
              files := files w |}) in
  let final := main arun json_loads w in
  fst final = Return 0%Z
  /\ fetches (snd final)
     = fetches w ++ (seed_url, run_config)
         :: map (fun u => (u, manual_config)) urls_to_crawl
  /\ List.length outcomes = List.length urls_to_crawl
  /\ manual_results = flat_map kept outcomes
  /\ Forall (fun p => success p = true) manual_results
  /\ (forall i u e,
        nth_error urls_to_crawl i = Some u ->
        nth_error outcomes i = Some (Raised e) ->
        kept (Raised e) = [] /\ In (ErrorCrawling u e) (stdout (snd final)))
  /\ (forall i u r,
        nth_error urls_to_crawl i = Some u ->
        nth_error outcomes i = Some (Returned (SingleResult r)) ->
        success r = false ->
        kept (Returned (SingleResult r)) = []
        /\ In (Failed u (error_message r)) (stdout (snd final))).
Proof.
  intros Hrun Hlen outcomes manual_results final.
  assert (Hfinal : final =
            (Return 0%Z,
             {| net := snd (fetch_each arun urls_to_crawl n1);
                fetches := (fetches w ++ [(seed_url, run_config)])
                           ++ map (fun u => (u, manual_config)) urls_to_crawl;
                stdout := (stdout w ++ [TryingManual]) ++ reports_of urls_to_crawl outcomes
                          ++ (if use_manual (ResultList auto) (fixed_list_results arun n1)
                              then [UsingManual (List.length (fixed_list_results arun n1))]
                              else []);
                files := files w
                         ++ [(output_path,
                              fst (reconcile json_loads
                                     (if use_manual (ResultList auto) (fixed_list_results arun n1)
                                      then fixed_list_results arun n1 else auto)));
                             (detailed_output_path,
                              snd (reconcile json_loads
                                     (if use_manual (ResultList auto) (fixed_list_results arun n1)
                                      then fixed_list_results arun n1 else auto)))] |})).
  { subst final. rewrite (main_list arun json_loads auto n1 w Hrun). cbv zeta.
    rewrite (fallback_limited arun auto _ Hlen). cbv beta iota zeta.
    rewrite handle_list. reflexivity. }
  assert (Hmanual : manual_results = flat_map kept outcomes).
  { subst manual_results. rewrite manual_loop_results. reflexivity. }
  rewrite Hfinal. cbn [fst snd fetches stdout].
  split; [reflexivity | split; [now rewrite <- app_assoc | split; [apply fetch_each_length | ]]].
  split; [exact Hmanual | split; [rewrite Hmanual; apply kept_all_successful | ]].
  split.
  - intros i u e Hu Ho. split; [reflexivity | ].
    apply in_or_app; right. apply in_or_app; left.
    exact (reports_of_in _ _ i u (Raised e) Hu Ho).
  - intros i u r Hu Ho Hs. split; [simpl; now rewrite Hs | ].
    apply in_or_app; right. apply in_or_app; left.
    pose proof (reports_of_in _ _ i u _ Hu Ho) as Hin.
    simpl in Hin. rewrite Hs in Hin. exact Hin.
Qed.

Lemma fallback_failures_reported_and_skipped_witness :
  fst (main small_site loads_fragment fresh) = Return 0%Z
  /\ In (ErrorCrawling "https://tradesquareltd.com/careers"
           "Page.goto: Timeout 60000ms exceeded.")
        (stdout (snd (main small_site loads_fragment fresh)))
  /\ In (Failed "https://tradesquareltd.com/contact-us" (Some "net::ERR_ABORTED"))
        (stdout (snd (main small_site loads_fragment fresh))).
Proof.
  destruct (fallback_failures_reported_and_skipped
              small_site loads_fragment fresh [home_page] 1 eq_refl)
    as (Hexit & _ & _ & _ & _ & Hraised & Hfailed).
  - simpl; lia.
  - split; [exact Hexit | split].
    + exact (proj2 (Hraised 5 _ _ eq_refl eq_refl)).
    + exact (proj2 (Hfailed 6 _ _ eq_refl eq_refl eq_refl)).
Defined.

(** C3, as stated, fails: on a site where the careers page times out and
    the contact page comes back unsuccessful, neither error is recorded in
    the fixed-list result set, whose pages all have an empty
    [error_message]. *)
Lemma failed_fetches_leave_no_page :
  let outcomes := fst (fetch_each small_site urls_to_crawl 1) in
  let manual_results := fst (manual_loop small_site urls_to_crawl [] after_deep_crawl) in
  In (Raised "Page.goto: Timeout 60000ms exceeded.") outcomes
  /\ ~ failure_recorded (Raised "Page.goto: Timeout 60000ms exceeded.") manual_results
  /\ In (Returned (SingleResult
           (unreachable "https://tradesquareltd.com/contact-us" "net::ERR_ABORTED")))
        outcomes
  /\ ~ failure_recorded
         (Returned (SingleResult
            (unreachable "https://tradesquareltd.com/contact-us" "net::ERR_ABORTED")))
         manual_results
  /\ Forall (fun p => error_message p = None) manual_results.
Proof.
  cbv zeta.
  assert (Hall : Forall (fun p => error_message p = None /\ success p = true)
                   (fst (manual_loop small_site urls_to_crawl [] after_deep_crawl))).
  { vm_compute. repeat constructor. }
  rewrite Forall_forall in Hall.
  split; [vm_compute; tauto | split; [ | split; [vm_compute; tauto | split]]].
  - intros (p & Hin & He). destruct (Hall p Hin) as [Hnone _]. congruence.
  - intros Hrec. destruct (Hall _ (Hrec eq_refl)) as [_ Hs]. discriminate.
  - apply Forall_forall. intros p Hin. apply (Hall p Hin).
Qed.

(** * Further properties *)

(** ** The reconciler *)

Lemma append_length (s1 s2 : string) :
  String.length (s1 ++ s2)%string = String.length s1 + String.length s2.
Proof. induction s1 as [|c s1 IH]; simpl; auto. Qed.

Lemma successful_skips_failed (before after : list PageResult) (f : PageResult) :
  success f = false ->
  successful_of (before ++ f :: after) = successful_of (before ++ after).
Proof.
  intros Hf. unfold successful_of. rewrite !filter_app. simpl. now rewrite Hf.
Qed.

(** X1: a page with [success = false] takes no part in either output:
    with or without it, wherever it stands in the result list, the
    aggregate list and the detailed list are the same. *)
Theorem failed_page_ignored
        (json_loads : string -> option value)
        (before after : list PageResult) (f : PageResult) :
  success f = false ->
  reconcile json_loads (before ++ f :: after) = reconcile json_loads (before ++ after).
Proof.
  intros Hf. unfold reconcile. now rewrite (successful_skips_failed _ _ _ Hf).
Qed.

Lemma failed_page_ignored_witness :
  reconcile loads_fragment
    ([page_A] ++ unreachable "https://tradesquareltd.com/home" "HTTP 404" :: [page_B])
  = reconcile loads_fragment [page_A; page_B].
Proof.
  apply (failed_page_ignored loads_fragment [page_A] [page_B]). reflexivity.
Defined.

Lemma successful_nil_iff (result : list PageResult) :
  successful_of result = [] <-> (forall p, In p result -> success p = false).
Proof.
  unfold successful_of. induction result as [|r result IH]; simpl.
  - split; [intros _ p [] | reflexivity].
  - destruct (success r) eqn:Hr.
    + split; [discriminate | ].
      intros H. specialize (H r (or_introl eq_refl)). congruence.
    + rewrite IH. split.
      * intros H p [<- | Hin]; auto.
      * intros H p Hin. apply H. now right.
Qed.

(** X2: the detailed list is empty exactly when no page of the result is
    successful, and then the aggregate list is empty too: an empty result,
    or one made of failures, gives two empty outputs. *)
Theorem detailed_empty_iff
        (json_loads : string -> option value) (result : list PageResult) :
  (snd (reconcile json_loads result) = []
   <-> (forall p, In p result -> success p = false))
  /\ (snd (reconcile json_loads result) = [] -> fst (reconcile json_loads result) = []).
Proof.
  rewrite detailed_map, aggregate_flat_map, <- successful_nil_iff.
  split; [split | ].
  - intros H. destruct (successful_of result); [reflexivity | discriminate].
  - now intros ->.
  - intros H. destruct (successful_of result); [reflexivity | discriminate].
Qed.

(** X3: [successful_results] and [failed_results] split the result: every
    page falls in exactly one of them, and the two counts printed add up
    to the number of pages crawled. *)
Theorem results_partition (result : list PageResult) :
  List.length (successful_of result) + List.length (failed_of result)
  = List.length result
  /\ Permutation (successful_of result ++ failed_of result) result
  /\ (forall p, In p result <-> In p (successful_of result) \/ In p (failed_of result))
  /\ (forall p, ~ (In p (successful_of result) /\ In p (failed_of result))).
Proof.
  unfold successful_of, failed_of.
  split; [apply filter_length | split; [ | split]].
  - induction result as [|r result IH]; simpl; [constructor | ].
    destruct (success r); simpl.
    + now constructor.
    + apply Permutation_sym, Permutation_cons_app, Permutation_sym, IH.
  - intros p. rewrite !filter_In. destruct (success p); simpl; intuition congruence.
  - intros p. rewrite !filter_In. destruct (success p); simpl; intuition congruence.
Qed.

(** X4: a successful page whose extracted content parses to a sequence
    adds the elements of the sequence, and nothing else, at its place in
    the aggregate list; elements that are sequences themselves stay as they
    are.  A page whose content parses to the empty sequence adds no record
    and still gets its summary. *)
Theorem list_payload_flattened
        (json_loads : string -> option value)
        (before after : list PageResult) (p : PageResult)
        (raw : string) (content : list value) :
  success p = true ->
  extracted_content p = Some raw ->
  raw <> EmptyString ->
  json_loads raw = Some (VList content) ->
  fst (reconcile json_loads (before ++ p :: after))
  = fst (reconcile json_loads before) ++ content ++ fst (reconcile json_loads after)
  /\ snd (reconcile json_loads (before ++ p :: after))
     = snd (reconcile json_loads before) ++ [page_data p]
       ++ snd (reconcile json_loads after).
Proof.
  intros Hs He Hne Hl.
  change (p :: after) with ([p] ++ after).
  rewrite !aggregate_app, !detailed_app, (reconcile_one _ _ Hs). simpl fst; simpl snd.
  unfold page_records. rewrite (page_action_present _ _ _ He Hne), Hl.
  split; reflexivity.
Qed.

Lemma list_payload_flattened_witness :
  fst (reconcile loads_fragment ([page_A] ++ empty_list_page :: [page_B]))
  = [titled "A0"; titled "A1"; titled "B0"; titled "B1"]
  /\ List.length (snd (reconcile loads_fragment ([page_A] ++ empty_list_page :: [page_B])))
     = 3.
Proof.
  destruct (list_payload_flattened loads_fragment [page_A] [page_B] empty_list_page
              "[]" []) as [Haggregate Hdetailed].
  - reflexivity.
  - reflexivity.
  - discriminate.
  - reflexivity.
  - rewrite Haggregate, Hdetailed. split; reflexivity.
Defined.

(** X5: a successful page whose extracted content parses to a value that
    is not a sequence (an object, but also a string, a number or null)
    adds that value as one record at its place in the aggregate list. *)
Theorem single_payload_appended
        (json_loads : string -> option value)
        (before after : list PageResult) (p : PageResult)
        (raw : string) (content : value) :
  success p = true ->
  extracted_content p = Some raw ->
  raw <> EmptyString ->
  json_loads raw = Some content ->
  (forall items, content <> VList items) ->
  fst (reconcile json_loads (before ++ p :: after))
  = fst (reconcile json_loads before) ++ [content] ++ fst (reconcile json_loads after).
Proof.
  intros Hs He Hne Hl Hshape.
  change (p :: after) with ([p] ++ after).
  rewrite !aggregate_app, (reconcile_one _ _ Hs). simpl fst.
  unfold page_records. rewrite (page_action_present _ _ _ He Hne), Hl.
  destruct content; try reflexivity.
  now destruct (Hshape items).
Qed.

Lemma single_payload_appended_witness :
  fst (reconcile loads_fragment ([page_A] ++ object_page :: []))
  = [titled "A0"; titled "A1";
     VDict [("name", VStr "Careers"); ("link", VStr "/careers");
            ("details", VStr "Open roles")]].
Proof.
  rewrite (single_payload_appended loads_fragment [page_A] [] object_page
             (json_text "{'name': 'Careers', 'link': '/careers', 'details': 'Open roles'}")
             (VDict [("name", VStr "Careers"); ("link", VStr "/careers");
                     ("details", VStr "Open roles")])
             eq_refl eq_refl).
  - reflexivity.
  - discriminate.
  - reflexivity.
  - intros items; discriminate.
Defined.

Lemma page_records_one (json_loads : string -> option value) (p : PageResult) :
  (forall raw items, extracted_content p = Some raw ->
                     json_loads raw <> Some (VList items)) ->
  List.length (page_records json_loads p) = 1.
Proof.
  intros Hno. unfold page_records.
  destruct (page_action_cases json_loads p)
    as [(raw & content & He & Hl & _)
       | [(raw & content & _ & _ & _ & ->)
         | [(raw & _ & _ & ->) | (_ & ->)]]]; try reflexivity.
  now destruct (Hno raw content He).
Qed.

(** X6: when no successful page carries a content that parses to a
    sequence, the aggregate list has exactly one record per successful
    page: it is as long as the detailed list. *)
Theorem one_record_per_page_without_lists
        (json_loads : string -> option value) (result : list PageResult) :
  (forall p raw items,
      In p result -> success p = true -> extracted_content p = Some raw ->
      json_loads raw <> Some (VList items)) ->
  List.length (fst (reconcile json_loads result))
  = List.length (snd (reconcile json_loads result)).
Proof.
  intros Hno. rewrite aggregate_flat_map, detailed_map, length_map.
  assert (Hall : forall p, In p (successful_of result) ->
                           List.length (page_records json_loads p) = 1).
  { intros p Hin. apply filter_In in Hin as [Hin Hs].
    apply page_records_one. intros raw items He. exact (Hno p raw items Hin Hs He). }
  induction (successful_of result) as [|p ps IH]; simpl; [reflexivity | ].
  rewrite length_app, (Hall p (or_introl eq_refl)), IH; [reflexivity | ].
  intros q Hq. apply Hall. now right.
Qed.

Lemma one_record_per_page_without_lists_witness :
  List.length (fst (reconcile loads_fragment [markup_page; object_page; no_text_page])) = 3.
Proof.
  rewrite (one_record_per_page_without_lists loads_fragment
             [markup_page; object_page; no_text_page]).
  - reflexivity.
  - intros p raw items [<- | [<- | [<- | []]]] _ He;
      vm_compute in He; try discriminate;
      injection He as <-; vm_compute; discriminate.
Defined.

(** X7: the preview of a no-extraction record is never empty and never
    longer than 203 characters, whatever the length of the rendered text. *)
Theorem markdown_preview_bounds (p : PageResult) :
  4 <= String.length (markdown_preview p) <= 203.
Proof.
  unfold markdown_preview.
  destruct (markdown p) as [[|c m]|]; simpl truthy; cbv iota; try (simpl; lia).
  rewrite append_length, slice_to_length. simpl String.length. lia.
Qed.

(** X8: the rendered text kept in a summary is never longer than 503
    characters; it is missing exactly when the page has no rendered text,
    and an empty rendered text is kept as it is. *)
Theorem markdown_field_bounds (p : PageResult) :
  match markdown_field p with
  | Some preview =>
      String.length preview <= 503
      /\ exists m, markdown p = Some m
                   /\ (preview = m \/ (500 < String.length m
                                       /\ String.length preview = 503))
  | None => markdown p = None
  end.
Proof.
  destruct (markdown p) as [m|] eqn:Hm.
  - destruct (Nat.lt_ge_cases 500 (String.length m)) as [Hlong | Hshort].
    + rewrite (markdown_field_long _ _ Hm Hlong).
      assert (Hlen : String.length (slice_to 500 m ++ "...")%string = 503).
      { rewrite append_length, slice_to_length.
        change (String.length "...") with 3. lia. }
      split; [lia | ]. exists m. split; [reflexivity | right; split; assumption].
    + rewrite (markdown_field_short _ _ Hm Hshort).
      split; [lia | ]. exists m. auto.
  - now rewrite (markdown_field_none _ Hm).
Qed.

Lemma marker_not_sentinel (s : string) :
  (slice_to 200 s ++ "...")%string <> "No content".
Proof.
  intros H.
  assert (Hlen : String.length (slice_to 200 s) = 7).
  { apply (f_equal String.length) in H. rewrite append_length in H.
    change (String.length "...") with 3 in H.
    change (String.length "No content") with 10 in H. lia. }
  destruct (slice_to 200 s) as [|c1 [|c2 [|c3 [|c4 [|c5 [|c6 [|c7 [|c8 t]]]]]]]];
    simpl in Hlen; discriminate.
Qed.

(** X9: the preview of a no-extraction record is the sentinel
    [No content] exactly when the page has no rendered text or an empty
    one; no rendered text can be mistaken for the sentinel, since a text
    always comes with the marker. *)
Theorem sentinel_iff_no_text (p : PageResult) :
  markdown_preview p = "No content" <-> truthy (markdown p) = false.
Proof.
  unfold markdown_preview.
  destruct (markdown p) as [[|c m]|]; simpl truthy; cbv iota.
  - split; reflexivity.
  - split; [ | discriminate].
    intros H. now apply marker_not_sentinel in H.
  - split; reflexivity.
Qed.

(** ** The run as a whole *)

Section RunFacts.

Context {Net : Type}.
Variable arun : string -> CrawlerRunConfig -> Net -> Outcome * Net.
Variable json_loads : string -> option value.

Implicit Type w : @World Net.

Lemma main_unfold w :
  main arun json_loads w =
    match fst (arun seed_url run_config (net w)) with
    | Raised e => (Propagated e, crawled_deep arun w)
    | Returned result =>
        let (result', w2) := fallback arun result (crawled_deep arun w) in
        handle json_loads result' w2
    end.
Proof.
  unfold main, bind, await_arun, crawled_deep, ret.
  destruct (arun seed_url run_config (net w)) as [[result|e] n]; reflexivity.
Qed.

Lemma fallback_single (page : PageResult) w :
  fallback arun (SingleResult page) w = (SingleResult page, w).
Proof. reflexivity. Qed.

Lemma handle_single (page : PageResult) w :
  handle json_loads (SingleResult page) w
  = (Return (if success page then 0 else 1)%Z, w).
Proof. unfold handle, ret. now destruct (success page). Qed.


Lemma kept_length (outcomes : list Outcome) :
  List.length (flat_map kept outcomes) <= List.length outcomes.
Proof.
  induction outcomes as [|o os IH]; simpl; [lia | ].
  rewrite length_app.
  assert (List.length (kept o) <= 1).
  { destruct o as [[pages|page]|e]; simpl; try lia. destruct (success page); simpl; lia. }
  lia.
Qed.

Lemma successful_all (pages : list PageResult) :
  Forall (fun p => success p = true) pages ->
  successful_of pages = pages /\ failed_of pages = [].
Proof.
  unfold successful_of, failed_of.
  induction 1 as [|p ps Hp _ [IH1 IH2]]; simpl; [auto | ].
  rewrite Hp; simpl. now rewrite IH1, IH2.
Qed.

End RunFacts.


Lemma main_without_list
      {Net : Type} (arun : string -> CrawlerRunConfig -> Net -> Outcome * Net)
      (json_loads : string -> option value) (w : @World Net) :
  (forall auto, fst (arun seed_url run_config (net w)) <> Returned (ResultList auto)) ->
  snd (main arun json_loads w) = crawled_deep arun w.
Proof.
  intros Hno. rewrite main_unfold.
  destruct (fst (arun seed_url run_config (net w))) as [[auto|page]|e].
  - now destruct (Hno auto).
  - rewrite fallback_single, handle_single. reflexivity.
  - reflexivity.
Qed.

(** X11: unless the deep crawl hands back a list, the run does nothing
    beyond that one fetch: no fixed-list fetch, no line of the fallback
    pass, no file written. *)
Theorem no_list_no_output
        {Net : Type} (arun : string -> CrawlerRunConfig -> Net -> Outcome * Net)
        (json_loads : string -> option value) (w : @World Net) :
  (forall auto, fst (arun seed_url run_config (net w)) <> Returned (ResultList auto)) ->
  snd (main arun json_loads w)
  = {| net := snd (arun seed_url run_config (net w));
       fetches := fetches w ++ [(seed_url, run_config)];
       stdout := stdout w;
       files := files w |}.
Proof.
  intros Hno. now rewrite (main_without_list arun json_loads w Hno).
Qed.

Lemma no_list_no_output_witness :
  main single_site loads_fragment fresh
  = (Return 1%Z,
     {| net := 1; fetches := [(seed_url, run_config)]; stdout := []; files := [] |}).
Proof.
  rewrite (surjective_pairing (main single_site loads_fragment fresh)).
  rewrite (no_list_no_output single_site loads_fragment fresh).
  - reflexivity.
  - intros auto; discriminate.
Defined.

(** X12: the fixed-list result set holds at most seven pages, all of them
    successful; reconciled, it has no failed page and gets one summary per
    page. *)
Theorem fixed_list_results_successful
        {Net : Type} (arun : string -> CrawlerRunConfig -> Net -> Outcome * Net)
        (json_loads : string -> option value) (w : @World Net) :
  let manual_results := fst (manual_loop arun urls_to_crawl [] w) in
  List.length manual_results <= 7
  /\ Forall (fun p => success p = true) manual_results
  /\ successful_of manual_results = manual_results
  /\ failed_of manual_results = []
  /\ snd (reconcile json_loads manual_results) = map page_data manual_results.
Proof.
  cbv zeta. rewrite manual_loop_results. unfold fixed_list_results.
  pose proof (kept_all_successful (fst (fetch_each arun urls_to_crawl (net w)))) as Hall.
  destruct (successful_all _ Hall) as [Hs Hf].
  split; [ | split; [exact Hall | split; [exact Hs | split; [exact Hf | ]]]].
  - etransitivity; [apply kept_length | ]. now rewrite fetch_each_length.
  - now rewrite detailed_map, Hs.
Qed.

(** X13: after a deep crawl that found no page at all, the result that
    goes on is always the fixed-list result set, be it empty. *)
Theorem empty_deep_crawl_takes_fixed_list
        {Net : Type} (arun : string -> CrawlerRunConfig -> Net -> Outcome * Net)
        (w : @World Net) :
  fst (fallback arun (ResultList []) w)
  = ResultList (fst (manual_loop arun urls_to_crawl [] (snd (print TryingManual w)))).
Proof.
  rewrite manual_loop_results. cbn [print snd net].
  rewrite (fallback_limited arun [] w) by (simpl; lia). cbv zeta. cbn [fst].
  unfold use_manual. cbn [List.length].
  destruct (fixed_list_results arun (net w)); reflexivity.
Qed.

(** X14: when the deep crawl finds no page and every fetch of the fixed
    list fails, the run still ends with exit code 0 and writes the two
    files, each holding an empty list. *)
Theorem total_failure_writes_empty_files
        {Net : Type} (arun : string -> CrawlerRunConfig -> Net -> Outcome * Net)
        (json_loads : string -> option value) (w : @World Net) (n1 : Net) :
  arun seed_url run_config (net w) = (Returned (ResultList []), n1) ->
  (forall o, In o (fst (fetch_each arun urls_to_crawl n1)) -> kept o = []) ->
  fst (main arun json_loads w) = Return 0%Z
  /\ files (snd (main arun json_loads w))
     = files w ++ [(output_path, []); (detailed_output_path, [])].
Proof.
  intros Hrun Hfail.
  assert (Hnone : fixed_list_results arun n1 = []).
  { unfold fixed_list_results.
    induction (fst (fetch_each arun urls_to_crawl n1)) as [|o os IH]; simpl; [reflexivity | ].
    rewrite (Hfail o (or_introl eq_refl)), IH; [reflexivity | ].
    intros o' Ho'. apply Hfail. now right. }
  rewrite (main_list arun json_loads [] n1 w Hrun). cbv zeta.
  rewrite (fallback_limited arun [] _) by (simpl; lia). cbv beta iota zeta.
  cbn [net]. rewrite Hnone. cbn [use_manual List.length Nat.ltb Nat.leb].
  rewrite handle_list. split; reflexivity.
Qed.

Lemma total_failure_writes_empty_files_witness :
  files (snd (main dead_site loads_fragment fresh))
  = [(output_path, []); (detailed_output_path, [])].
Proof.
  destruct (total_failure_writes_empty_files dead_site loads_fragment fresh 1 eq_refl)
    as [_ Hfiles].
  - intros o Ho. vm_compute in Ho.
    repeat (destruct Ho as [<- | Ho]; [reflexivity | ]). destruct Ho.
  - exact Hfiles.
Defined.

(** X15: the fallback loop composes: crawling a list of URLs made of two
    parts is crawling the first part, then the second from the state and
    the pages the first has left; pages already collected are never
    dropped or reordered. *)
Theorem manual_loop_app
        {Net : Type} (arun : string -> CrawlerRunConfig -> Net -> Outcome * Net)
        (urls1 urls2 : list string) (manual_results : list PageResult)
        (w : @World Net) :
  manual_loop arun (urls1 ++ urls2) manual_results w
  = (let (collected, w') := manual_loop arun urls1 manual_results w in
     manual_loop arun urls2 collected w')
  /\ exists added,
       fst (manual_loop arun (urls1 ++ urls2) manual_results w)
       = manual_results ++ added.
Proof.
  split.
  - revert manual_results w.
    induction urls1 as [|u urls1 IH]; intros manual_results w; [reflexivity | ].
    cbn [app manual_loop].
    set (turn := crawl_manually arun manual_results u).
    unfold bind. destruct (turn w) as [collected w'].
    apply IH.
  - rewrite manual_loop_from. cbn [fst]. eauto.
Qed.

(** [main] after a deep crawl that returned fewer than three pages. *)
Lemma main_limited
      {Net : Type} (arun : string -> CrawlerRunConfig -> Net -> Outcome * Net)
      (json_loads : string -> option value)
      (w : @World Net) (auto : list PageResult) (n1 : Net) :
  arun seed_url run_config (net w) = (Returned (ResultList auto), n1) ->
  List.length auto < 3 ->
  main arun json_loads w =
    let manual_results := fixed_list_results arun n1 in
    let active := if use_manual (ResultList auto) manual_results
                  then manual_results else auto in
    (Return 0%Z,
     {| net := snd (fetch_each arun urls_to_crawl n1);
        fetches := (fetches w ++ [(seed_url, run_config)])
                   ++ map (fun u => (u, manual_config)) urls_to_crawl;
        stdout := (stdout w ++ [TryingManual])
                  ++ reports_of urls_to_crawl (fst (fetch_each arun urls_to_crawl n1))
                  ++ (if use_manual (ResultList auto) manual_results
                      then [UsingManual (List.length manual_results)] else []);
        files := files w
                 ++ [(output_path, fst (reconcile json_loads active));
                     (detailed_output_path, snd (reconcile json_loads active))] |}).
Proof.
  intros Hrun Hlen. rewrite (main_list arun json_loads auto n1 w Hrun). cbv zeta.
  rewrite (fallback_limited arun auto _ Hlen). cbv beta iota zeta.
  rewrite handle_list. reflexivity.
Qed.

(** X16: when the fixed-list result set is chosen, the number of pages
    announced on line 111 is the number of summaries written to the
    detailed file: every page of the chosen set is successful, so none is
    lost in reconciliation. *)
Theorem announced_pages_match_summaries
        {Net : Type} (arun : string -> CrawlerRunConfig -> Net -> Outcome * Net)
        (json_loads : string -> option value)
        (w : @World Net) (auto : list PageResult) (n1 : Net) :
  arun seed_url run_config (net w) = (Returned (ResultList auto), n1) ->
  List.length auto < 3 ->
  let manual_results :=
    fst (manual_loop arun urls_to_crawl []
           {| net := n1;
              fetches := fetches w ++ [(seed_url, run_config)];
              stdout := stdout w ++ [TryingManual];
              files := files w |}) in
  List.length auto < List.length manual_results ->
  In (UsingManual (List.length manual_results))
     (stdout (snd (main arun json_loads w)))
  /\ files (snd (main arun json_loads w))
     = files w
       ++ [(output_path, fst (reconcile json_loads manual_results));
           (detailed_output_path, map page_data manual_results)]
  /\ List.length (map page_data manual_results) = List.length manual_results.
Proof.
  intros Hrun Hlen manual_results Hmore. subst manual_results.
  rewrite manual_loop_results in *. cbn [net] in *.
  rewrite (main_limited arun json_loads w auto n1 Hrun Hlen). cbv zeta.
  apply use_manual_list in Hmore. rewrite Hmore. cbn [snd stdout files].
  split; [ | split].
  - apply in_or_app; right. apply in_or_app; right. now left.
  - rewrite detailed_map.
    destruct (successful_all (fixed_list_results arun n1)) as [-> _];
      [apply kept_all_successful | reflexivity].
  - apply length_map.
Qed.

Lemma announced_pages_match_summaries_witness :
  In (UsingManual 5) (stdout (snd (main small_site loads_fragment fresh)))
  /\ exists aggregate detailed_data,
       files (snd (main small_site loads_fragment fresh))
       = [(output_path, aggregate); (detailed_output_path, detailed_data)]
       /\ List.length detailed_data = 5.
Proof.
  destruct (announced_pages_match_summaries
              small_site loads_fragment fresh [home_page] 1 eq_refl)
    as (Hline & Hfiles & Hcount).
  - simpl; lia.
  - vm_compute; lia.
  - split; [exact Hline | ].
    eexists; eexists. split; [exact Hfiles | exact Hcount].
Defined.


(** ** The report *)

Section ReportFacts.

Variable str : value -> string.

Lemma preview_items_title (items : list value) (i n : nat) (t : string) :
  In (PreviewTitle n t) (preview_items str i items) ->
  exists k entries,
    n = i + k + 1
    /\ nth_error items k = Some (VDict entries)
    /\ t = str (preview_title entries).
Proof.
  revert i; induction items as [|item items IH]; intros i Hin; simpl in Hin; [easy | ].
  apply in_app_or in Hin as [Hin | Hin].
  - destruct item; simpl in Hin; try easy.
    destruct Hin as [Heq | Hin].
    + injection Heq as <- <-. exists 0, entries. split; [lia | auto].
    + apply in_app_or in Hin as [Hin | Hin].
      * destruct (dict_get "link" entries); simpl in Hin; intuition discriminate.
      * destruct (dict_get "details" entries); simpl in Hin; intuition discriminate.
  - destruct (IH (S i) Hin) as (k & entries & -> & Hnth & ->).
    exists (S k), entries. split; [lia | auto].
Qed.

Lemma preview_items_titles (items : list value) (i : nat) :
  List.length (filter is_title_line (preview_items str i items))
  = List.length (filter is_dict items).
Proof.
  revert i; induction items as [|item items IH]; intros i; simpl; [reflexivity | ].
  rewrite filter_app, length_app, IH.
  destruct item; simpl; try reflexivity.
  rewrite filter_app.
  destruct (dict_get "link" entries), (dict_get "details" entries); reflexivity.
Qed.

Lemma preview_items_details (items : list value) (i : nat) :
  Forall details_length_ok (preview_items str i items).
Proof.
  revert i; induction items as [|item items IH]; intros i; simpl; [constructor | ].
  apply Forall_app; split; [ | apply IH].
  destruct item; try (now constructor).
  unfold preview_item. constructor; [exact I | ].
  apply Forall_app; split.
  - destruct (dict_get "link" entries); [constructor; [exact I | constructor] | constructor].
  - destruct (dict_get "details" entries) as [details|]; [ | constructor].
    constructor; [ | constructor].
    unfold details_length_ok. rewrite append_length, slice_to_length.
    change (String.length "...") with 3. lia.
Qed.

Lemma pages_lines_no_failure (pages : list PageResult) (i : nat) :
  filter is_failure_line (pages_lines i pages) = [].
Proof.
  revert i; induction pages as [|p pages IH]; intros i; simpl; [reflexivity | ].
  rewrite filter_app, IH, app_nil_r.
  destruct (extracted_content p) as [[|c raw]|]; reflexivity.
Qed.

Lemma preview_items_no_failure (items : list value) (i : nat) :
  filter is_failure_line (preview_items str i items) = [].
Proof.
  revert i; induction items as [|item items IH]; intros i; simpl; [reflexivity | ].
  rewrite filter_app, IH, app_nil_r.
  destruct item; simpl; try reflexivity.
  rewrite filter_app.
  destruct (dict_get "link" entries), (dict_get "details" entries); reflexivity.
Qed.

Lemma preview_lines_no_failure (items : list value) :
  filter is_failure_line (preview_lines str items) = [].
Proof.
  destruct items as [|item items]; [reflexivity | ].
  unfold preview_lines. rewrite filter_app. simpl filter at 1.
  apply preview_items_no_failure.
Qed.

Variable json_loads : string -> option value.

Lemma report_without_failed (pages : list PageResult) :
  failed_of pages = [] ->
  filter is_failure_line (report json_loads str (ResultList pages)) = [].
Proof.
  intros Hf. unfold report. cbv zeta. rewrite Hf.
  rewrite !filter_app, pages_lines_no_failure, preview_lines_no_failure. reflexivity.
Qed.

End ReportFacts.

(** X18: a page that ends as a fallback record, for want of extracted
    content or of content that parses, is shown in the preview under its
    own URL, with neither a link line nor a details line. *)
Theorem fallback_record_titled_by_url
        (json_loads : string -> option value) (str : value -> string)
        (p : PageResult) :
  success p = true ->
  truthy (extracted_content p) = false
  \/ (exists raw, extracted_content p = Some raw /\ json_loads raw = None) ->
  preview_lines str (fst (reconcile json_loads [p]))
  = [ExtractedTotal 1; PreviewHeader; PreviewTitle 1 (str (VStr (url p)))].
Proof.
  intros Hs Hcase. rewrite (reconcile_one _ _ Hs). cbn [fst]. unfold page_records.
  destruct (extracted_content p) as [[|c raw]|] eqn:He.
  - rewrite page_action_absent by now rewrite He. reflexivity.
  - destruct Hcase as [Hf | (raw' & Hraw & Hl)]; [discriminate | ].
    injection Hraw as <-.
    rewrite (page_action_present _ _ _ He) by discriminate. rewrite Hl. reflexivity.
  - rewrite page_action_absent by now rewrite He. reflexivity.
Qed.

Lemma fallback_record_titled_by_url_witness :
  preview_lines str_text (fst (reconcile loads_fragment [markup_page]))
  = [ExtractedTotal 1; PreviewHeader;
     PreviewTitle 1 "https://tradesquareltd.com/our-services"]
  /\ preview_lines str_text (fst (reconcile loads_fragment [no_text_page]))
     = [ExtractedTotal 1; PreviewHeader;
        PreviewTitle 1 "https://tradesquareltd.com/careers"].
Proof.
  split.
  - apply (fallback_record_titled_by_url loads_fragment str_text markup_page eq_refl).
    right. exists "<ul><li>Design</li></ul>". split; reflexivity.
  - apply (fallback_record_titled_by_url loads_fragment str_text no_text_page eq_refl).
    left. reflexivity.
Defined.

(** X19: the preview shows the first three records at most, and of these
    only the objects: there are as many title lines as objects among the
    first three records.  A title line bears the position of its record,
    from 1 to 3, and the title found in that record; an empty aggregate
    list prints no preview at all. *)
Theorem preview_shows_first_three
        (str : value -> string) (all_extracted_content : list value) :
  List.length (filter is_title_line (preview_lines str all_extracted_content))
  = List.length (filter is_dict (firstn 3 all_extracted_content))
  /\ List.length (filter is_title_line (preview_lines str all_extracted_content)) <= 3
  /\ (forall n t,
        In (PreviewTitle n t) (preview_lines str all_extracted_content) ->
        1 <= n <= 3
        /\ exists entries,
             nth_error all_extracted_content (n - 1) = Some (VDict entries)
             /\ t = str (preview_title entries))
  /\ (preview_lines str all_extracted_content = [] <-> all_extracted_content = []).
Proof.
  assert (Hcount :
            List.length (filter is_title_line (preview_lines str all_extracted_content))
            = List.length (filter is_dict (firstn 3 all_extracted_content))).
  { destruct all_extracted_content as [|item items]; [reflexivity | ].
    unfold preview_lines. rewrite filter_app. simpl filter at 1.
    apply preview_items_titles. }
  split; [exact Hcount | split; [ | split]].
  - rewrite Hcount.
    etransitivity; [apply filter_length_le | ].
    rewrite length_firstn. lia.
  - intros n t Hin.
    destruct all_extracted_content as [|item items]; [easy | ].
    unfold preview_lines in Hin.
    destruct Hin as [Heq | [Heq | Hin]]; try discriminate.
    cbn [app] in Hin.
    apply preview_items_title in Hin as (k & entries & -> & Hnth & ->).
    assert (Hk : k < 3).
    { assert (Hsome : nth_error (firstn 3 (item :: items)) k <> None) by congruence.
      apply nth_error_Some in Hsome. rewrite length_firstn in Hsome. lia. }
    split; [lia | ]. exists entries. split; [ | reflexivity].
    replace (0 + k + 1 - 1) with k by lia.
    rewrite <- Hnth, nth_error_firstn.
    apply Nat.ltb_lt in Hk. now rewrite Hk.
  - destruct all_extracted_content; simpl; split; congruence.
Qed.

(** X20: a details line of the preview is never longer than 103
    characters, however long the text of the details. *)
Theorem preview_details_bounded
        (str : value -> string) (all_extracted_content : list value) :
  Forall details_length_ok (preview_lines str all_extracted_content).
Proof.
  destruct all_extracted_content as [|item items]; [constructor | ].
  unfold preview_lines.
  constructor; [exact I | constructor; [exact I | ]].
  apply preview_items_details.
Qed.

(** X21: when the fixed-list result set is the one reported, the report
    has no failed count, no failed header and no failed URL: the failures
    of the fallback pass are told during the pass and never again. *)
Theorem fixed_list_report_has_no_failures
        {Net : Type} (arun : string -> CrawlerRunConfig -> Net -> Outcome * Net)
        (json_loads : string -> option value) (str : value -> string)
        (w : @World Net) :
  filter is_failure_line
    (report json_loads str
       (ResultList (fst (manual_loop arun urls_to_crawl [] w))))
  = [].
Proof.
  apply report_without_failed.
  rewrite manual_loop_results. unfold fixed_list_results.
  apply successful_all, kept_all_successful.
Qed.
